(** * Zillow scraper: the Nimble fetch loop and the page-state JSON parser

    A shallow embedding of [src/parser.py] (class [ZillowParser]) and of
    [src/scraper.py] (class [NimbleScraper]).

    - JSON documents are the values [json.loads] produces: [None], booleans,
      integers, floats, strings, lists and string-keyed dicts.
    - Python exceptions are explicit: every function that can raise returns
      a [result], and [try]/[except] is [try_except] with the classes the
      handler names. That includes turning a value into text ([str] gives
      up on an integer of more than 4300 digits) and printing it (a lone
      surrogate cannot be encoded).
    - The network, the HTML parser and the URL helpers of the standard
      library are the scraper's [world]; every POST is recorded in a log.
    - The driver [scrape_all_pages_and_parse] of
      [src/scrape_with_pagination.py] runs the two together; what it and
      [get_summary_stats] ask of the numeric built-ins is its [env]. *)

From Stdlib Require Import ZArith String Ascii List Lia.
From Stdlib Require Import PrimFloat FloatOps FloatAxioms SpecFloat Uint63.
From stdpp Require Import base tactics option list gmap strings pretty fin_maps.

Local Open Scope string_scope.
Local Open Scope list_scope.
Local Open Scope Z_scope.

(* ================================================================== *)
(** ** Python values and exceptions *)
(* ================================================================== *)

Module Py.

(** What [json.loads] returns. A dict is a finite map on its keys (a JSON
    object keeps the last of two equal keys). A string is given by its
    UTF-8 bytes; a lone surrogate, which a JSON string can hold (as
    ["\ud800"]), by the three bytes the same scheme gives it
    ([ED A0..BF xx]). *)
#[warnings="-register-all"]
Inductive value : Type :=
| VNone
| VBool (b : bool)
| VInt (n : Z)
| VFloat (f : float)
| VStr (s : string)
| VList (l : list value)
| VDict (d : gmap string value).

(** The exception classes the modules can meet. *)
Inductive exn : Type :=
| AttributeError
| TypeError
| ValueError
| KeyError
| UnicodeEncodeError
| RecursionError
| HTTPError
| ConnectionError
| Timeout
| InvalidJSONError.

(** [requests.exceptions.RequestException] and its subclasses:
    [HTTPError], [ConnectionError], [Timeout], and the [JSONDecodeError]
    that [Response.json] raises (an [InvalidJSONError]). *)
Definition is_RequestException (e : exn) : bool :=
  match e with
  | HTTPError | ConnectionError | Timeout | InvalidJSONError => true
  | _ => false
  end.

Definition is_HTTPError (e : exn) : bool :=
  match e with HTTPError => true | _ => false end.

(** Every class above derives from [Exception]. *)
Definition is_Exception (e : exn) : bool := true.

Inductive result (A : Type) : Type :=
| Ok (a : A)
| Raise (e : exn).
Arguments Ok {A} a.
Arguments Raise {A} e.

#[global] Instance result_ret : MRet result := @Ok.
#[global] Instance result_bind : MBind result := λ A B f m,
  match m with
  | Ok a => f a
  | Raise e => Raise e
  end.

(** [try: body  except C1: h1  except C2: h2 ...]: the first clause whose
    class matches handles the exception. An exception no clause matches,
    and one raised by a handler itself, propagates. *)
Definition handlers (A : Type) : Type := list ((exn → bool) * (exn → result A)).

Fixpoint handle {A} (e : exn) (clauses : handlers A) : result A :=
  match clauses with
  | [] => Raise e
  | (class, handler) :: rest => if class e then handler e else handle e rest
  end.

Definition try_except {A} (body : result A) (clauses : handlers A) : result A :=
  match body with
  | Ok a => Ok a
  | Raise e => handle e clauses
  end.

(** [bool(v)]: the test behind [if v], [not v] and [a or b]. *)
Definition truthy (v : value) : bool :=
  match v with
  | VNone => false
  | VBool b => b
  | VInt n => negb (n =? 0)
  | VFloat f => negb (f =? 0)%float
  | VStr s => match s with EmptyString => false | _ => true end
  | VList l => match l with [] => false | _ => true end
  | VDict d => negb (bool_decide (d = ∅))
  end.

(** [a or b]: [b] is evaluated only when [a] is falsy. *)
Definition py_or (a : value) (b : result value) : result value :=
  if truthy a then Ok a else b.

(** [obj.get(key, default)]: only a dict has the method. *)
Definition py_get (obj : value) (key : string) (dflt : value) : result value :=
  match obj with
  | VDict d => Ok (default dflt (d !! key))
  | _ => Raise AttributeError
  end.

(** [obj[key]] for a string [key]: a dict without the key raises
    [KeyError]; a list or string wants an integer index and the other
    values are not subscriptable. *)
Definition py_getitem (obj : value) (key : string) : result value :=
  match obj with
  | VDict d =>
      match d !! key with
      | Some v => Ok v
      | None => Raise KeyError
      end
  | _ => Raise TypeError
  end.

(** [obj[key] = v] for a string [key]: a dict takes it; a list wants an
    integer index and the other values support no item assignment. *)
Definition py_setitem (obj : value) (key : string) (v : value) : result value :=
  match obj with
  | VDict d => Ok (VDict (<[key := v]> d))
  | _ => Raise TypeError
  end.

(** [isinstance(v, dict)] and [key in v] for a dict [v]. *)
Definition is_dict (v : value) : bool :=
  match v with VDict _ => true | _ => false end.

Definition dict_has (v : value) (key : string) : bool :=
  match v with
  | VDict d => bool_decide (is_Some (d !! key))
  | _ => false
  end.

(** [s.startswith(prefix)]: a method of [str] alone. *)
Definition py_startswith (v : value) (pre : string) : result bool :=
  match v with
  | VStr s => Ok (String.prefix pre s)
  | _ => Raise AttributeError
  end.

(** *** Text *)

Definition byte_in (lo hi : N) (c : ascii) : bool :=
  ((lo <=? N_of_ascii c) && (N_of_ascii c <=? hi))%N.

(** A byte that continues a code point ([80..BF]). *)
Definition starts_with_continuation (s : string) : bool :=
  match s with
  | String c _ => byte_in 128 191 c
  | EmptyString => false
  end.

(** The code points of a text, each with its bytes: a code point starts
    at a byte that is no continuation byte. *)
Fixpoint chars (s : string) : list string :=
  match s with
  | EmptyString => []
  | String c rest =>
      match chars rest with
      | first :: others =>
          if starts_with_continuation rest then String c first :: others
          else String c EmptyString :: first :: others
      | [] => [String c EmptyString]
      end
  end.

(** The text holds a lone surrogate: a byte [ED] followed by one of
    [A0..BF]. *)
Fixpoint has_surrogate (s : string) : bool :=
  match s with
  | String c (String c' _ as rest) =>
      byte_in 237 237 c && byte_in 160 191 c' || has_surrogate rest
  | _ => false
  end.

(** [print(text)], with [sys.stdout] encoding UTF-8 strictly (the default
    under a UTF-8 locale): a lone surrogate cannot be encoded. Where a
    message is built around one formatted value, [text] is that value's
    text; the rest of the message is a constant, the text of an
    exception or a small number, which print. *)
Definition py_print (text : string) : result unit :=
  if has_surrogate text then Raise UnicodeEncodeError else Ok tt.

(** [str(n)] for an [int] raises [ValueError] when [n] has more than
    4300 decimal digits (the default limit of CPython 3.11 and later). *)
Definition max_str_digits : Z := 4300.

Definition fits_str (n : Z) : bool := Z.abs n <? 10 ^ max_str_digits.

(** [str(v)], what an f-string field [{v}] expands to. [repr] is the
    text of the values not spelled out here (floats, lists, dicts), or
    the exception forming it raises (a [ValueError] for an integer of
    more than 4300 digits inside a list, a [RecursionError] for deep
    nesting). *)
Definition py_str (repr : value → result string) (v : value)
    : result string :=
  match v with
  | VStr s => Ok s
  | VNone => Ok "None"
  | VBool true => Ok "True"
  | VBool false => Ok "False"
  | VInt n => if fits_str n then Ok (pretty n) else Raise ValueError
  | _ => repr v
  end.

(** [len(v)]. *)
Definition py_len (v : value) : result Z :=
  match v with
  | VStr s => Ok (Z.of_nat (length (chars s)))
  | VList l => Ok (Z.of_nat (length l))
  | VDict d => Ok (Z.of_nat (size d))
  | _ => Raise TypeError
  end.

(** The elements a [for] loop sees: the items of a list, the characters
    of a string, the keys of a dict (in the map's order here; Python keeps
    insertion order). Anything else is not iterable. *)
Definition py_iter (v : value) : result (list value) :=
  match v with
  | VList l => Ok l
  | VStr s => Ok (VStr <$> chars s)
  | VDict d => Ok (VStr <$> (map_to_list d).*1)
  | _ => Raise TypeError
  end.

(** *** Arithmetic with an [int] literal on the right *)

(** C's [floor] on a double. *)
Definition float_floor (x : float) : float :=
  match Prim2SF x with
  | S754_finite s m e =>
      if 0 <=? e then x
      else
        let d := 2 ^ (- e) in
        let q := Z.pos m / d in
        if Z.pos m mod d =? 0 then x
        else if s then (- of_uint63 (Uint63.of_Z (q + 1)))%float
        else of_uint63 (Uint63.of_Z q)
  | _ => x
  end.

(** C's [fmod]: the exact remainder of [x / y], with the sign of [x]. *)
Definition float_fmod (x y : float) : float :=
  match Prim2SF x, Prim2SF y with
  | S754_nan, _ | _, S754_nan => nan
  | S754_infinity _, _ | _, S754_zero _ => nan
  | S754_zero _, _ => x
  | S754_finite _ _ _, S754_infinity _ => x
  | S754_finite sx mx ex, S754_finite _ my ey =>
      let e := Z.min ex ey in
      let r := (Z.pos mx * 2 ^ (ex - e)) mod (Z.pos my * 2 ^ (ey - e)) in
      let f := Z.ldexp (of_uint63 (Uint63.of_Z r)) e in
      if sx then (- f)%float else f
  end.

(** [vx // wx] on floats for [wx] other than zero (CPython's
    [float_floor_div]): the quotient of [vx - fmod(vx, wx)] by [wx],
    snapped to the nearest integral value. *)
Definition float_floordiv (vx wx : float) : float :=
  let md := float_fmod vx wx in
  let dv := ((vx - md) / wx)%float in
  let dv :=
    if negb (md =? 0)%float && xorb (wx <? 0)%float (md <? 0)%float
    then (dv - 1)%float else dv in
  if negb (dv =? 0)%float then
    let fl := float_floor dv in
    if (0.5 <? dv - fl)%float then (fl + 1)%float else fl
  else if get_sign (vx / wx)%float then (-0)%float else 0%float.

(** The float a small non-negative [int] literal converts to (exact). *)
Definition float_of_literal (n : Z) : float := of_uint63 (Uint63.of_Z n).

(** [v + n], [v - n] and [v // n] for an [int] literal [n] ([n > 0] for
    [//]): [bool] is an [int], a float stays a float, every other operand
    is a [TypeError]. *)
Definition py_add_int (v : value) (n : Z) : result value :=
  match v with
  | VInt m => Ok (VInt (m + n))
  | VBool b => Ok (VInt (Z.b2z b + n))
  | VFloat f => Ok (VFloat (f + float_of_literal n)%float)
  | _ => Raise TypeError
  end.

Definition py_sub_int (v : value) (n : Z) : result value :=
  match v with
  | VInt m => Ok (VInt (m - n))
  | VBool b => Ok (VInt (Z.b2z b - n))
  | VFloat f => Ok (VFloat (f - float_of_literal n)%float)
  | _ => Raise TypeError
  end.

Definition py_floordiv_int (v : value) (n : Z) : result value :=
  match v with
  | VInt m => Ok (VInt (m / n))
  | VBool b => Ok (VInt (Z.b2z b / n))
  | VFloat f => Ok (VFloat (float_floordiv f (float_of_literal n)))
  | _ => Raise TypeError
  end.

End Py.

(* ================================================================== *)
(** ** parser.py: [ZillowParser] *)
(* ================================================================== *)

Module Parser.
Import Py.

(** The parser object enters every method below through one value only:
    [json_data], what [self.extract_json_data()] returned (the decoded
    [__NEXT_DATA__] script, or [None] when BeautifulSoup or [json.loads]
    failed; that method catches every exception itself). *)

(** The inner loop of [_try_alternative_paths]:
    [for key in path: data = data.get(key, {})]. *)
Fixpoint walk (data : value) (path : list string) : result value :=
  match path with
  | [] => Ok data
  | key :: rest => data' ← py_get data key (VDict ∅); walk data' rest
  end.

Definition alternative_paths : list (list string) :=
  [ ["props"; "pageProps"; "searchPageState"; "searchResults"];
    ["props"; "pageProps"; "componentProps"; "searchResults"];
    ["props"; "initialReduxState"; "searchPageState"; "cat1"; "searchResults"] ].

(** The outer loop of [_try_alternative_paths]: each path is walked inside
    its own [try]; a bare [except] moves on to the next path. [Some data]
    is the [return data] inside the loop. *)
Fixpoint try_paths (json_data : value) (paths : list (list string)) : value :=
  match paths with
  | [] => VNone
  | path :: rest =>
      let attempt :=
        try_except
          (data ← walk json_data path;
           if truthy data && is_dict data && dict_has data "listResults"
           then Ok (Some data) else Ok None)
          [ (λ _, true, λ _, Ok None) ] in
      match attempt with
      | Ok (Some data) => data
      | _ => try_paths json_data rest
      end
  end.

Definition _try_alternative_paths (json_data : value) : value :=
  try_paths json_data alternative_paths.

Definition extract_search_results (json_data : value) : result value :=
  try_except
    (props ← py_get json_data "props" (VDict ∅);
     page_props ← py_get props "pageProps" (VDict ∅);
     search_page_state ← py_get page_props "searchPageState" (VDict ∅);
     cat1 ← py_get search_page_state "cat1" (VDict ∅);
     search_results ← py_get cat1 "searchResults" (VDict ∅);
     if negb (truthy search_results)
     then Ok (_try_alternative_paths json_data)
     else Ok search_results)
    [ (is_Exception, λ _, Ok VNone) ].

Section Formatting.

(** [repr] of the values whose text [py_str] does not spell out, or the
    exception it raises. *)
Variable repr : value → result string.

Definition parse_property (prop_data : value) : result value :=
  try_except
    (zpid ← py_get prop_data "zpid" VNone;
     if negb (truthy zpid) then Ok VNone else
     price ← py_get prop_data "price" VNone;
     price_str ← py_get prop_data "unformattedPrice" (VInt 0);
     address ← py_get prop_data "addressStreet" (VStr "");
     city ← py_get prop_data "addressCity" (VStr "");
     state ← py_get prop_data "addressState" (VStr "");
     zipcode ← py_get prop_data "addressZipcode" (VStr "");
     bedrooms ← py_get prop_data "beds" VNone;
     bathrooms ← py_get prop_data "baths" VNone;
     area ← py_get prop_data "area" VNone;
     property_type ←
       (hdp ← py_get prop_data "hdpData" (VDict ∅);
        info ← py_get hdp "homeInfo" (VDict ∅);
        py_get info "homeType" (VStr ""));
     listing_type ← py_get prop_data "statusType" (VStr "");
     listing_status ← py_get prop_data "statusText" (VStr "");
     detail_url ← py_get prop_data "detailUrl" (VStr "");
     detail_url ←
       (if truthy detail_url then
          http ← py_startswith detail_url "http";
          if negb http
          then text ← py_str repr detail_url;
               Ok (VStr ("https://www.zillow.com" +:+ text))
          else Ok detail_url
        else Ok detail_url);
     img_src ← py_get prop_data "imgSrc" (VStr "");
     lot_area ← py_get prop_data "lotAreaValue" VNone;
     lot_area_unit ← py_get prop_data "lotAreaUnit" (VStr "");
     year_built ←
       (hdp ← py_get prop_data "hdpData" (VDict ∅);
        info ← py_get hdp "homeInfo" (VDict ∅);
        py_get info "yearBuilt" VNone);
     days_on_zillow ←
       (var ← py_get prop_data "variableData" (VDict ∅);
        py_get var "text" (VStr ""));
     has_image ← py_get prop_data "hasImage" (VBool false);
     is_featured ← py_get prop_data "isFeatured" (VBool false);
     lat_long ← py_get prop_data "latLong" (VDict ∅);
     latitude ← py_get lat_long "latitude" VNone;
     longitude ← py_get lat_long "longitude" VNone;
     broker_name ← py_get prop_data "brokerName" (VStr "");
     (* the fields of the f-string for 'full_address', left to right *)
     address_text ← py_str repr address;
     city_text ← py_str repr city;
     state_text ← py_str repr state;
     zipcode_text ← py_str repr zipcode;
     Ok (VDict (list_to_map
       [ ("zpid", zpid);
         ("address", address);
         ("city", city);
         ("state", state);
         ("zipcode", zipcode);
         ("full_address",
            VStr (address_text +:+ ", " +:+ city_text +:+ ", "
                  +:+ state_text +:+ " " +:+ zipcode_text));
         ("price", price);
         ("price_numeric", price_str);
         ("bedrooms", bedrooms);
         ("bathrooms", bathrooms);
         ("area_sqft", area);
         ("property_type", property_type);
         ("listing_type", listing_type);
         ("listing_status", listing_status);
         ("detail_url", detail_url);
         ("image_url", img_src);
         ("lot_area", lot_area);
         ("lot_area_unit", lot_area_unit);
         ("year_built", year_built);
         ("days_on_zillow", days_on_zillow);
         ("latitude", latitude);
         ("longitude", longitude);
         ("broker_name", broker_name);
         ("has_image", has_image);
         ("is_featured", is_featured) ])))
    (* the handler formats [prop_data.get('zpid', 'unknown')] into its
       message and prints it; the text of the exception, the other field
       of the message, always forms and prints *)
    [ (is_Exception,
       λ _, zpid ← py_get prop_data "zpid" (VStr "unknown");
            text ← py_str repr zpid;
            _ ← py_print text;
            Ok VNone) ].

(** Lines 255-261 of [parse_all_properties]: the value bound to
    [list_results] when the loop starts. *)
Definition list_results_of (search_results : value) : result value :=
  list_results ← py_get search_results "listResults" (VList []);
  if negb (truthy list_results) then
    list_results ← py_get search_results "results" (VList []);
    py_or list_results (py_get search_results "mapResults" (VList []))
  else Ok list_results.

(** The loop of [parse_all_properties]; [properties] is the list built so
    far. For a parsed property the loop prints a message with
    [prop_info['address']] in it; the other numbers in its messages are
    the index and [len(list_results)]. *)
Fixpoint parse_each (items properties : list value) : result (list value) :=
  match items with
  | [] => Ok properties
  | prop_data :: rest =>
      prop_info ← parse_property prop_data;
      if truthy prop_info
      then
        address ← py_getitem prop_info "address";
        text ← py_str repr address;
        _ ← py_print text;
        parse_each rest (properties ++ [prop_info])
      else parse_each rest properties
  end.

Definition parse_all_properties (json_data : value) : result (list value) :=
  if negb (truthy json_data) then Ok [] else
  search_results ← extract_search_results json_data;
  if negb (truthy search_results) then Ok [] else
  list_results ← list_results_of search_results;
  _ ← py_len list_results;
  items ← py_iter list_results;
  parse_each items [].

End Formatting.

Definition results_per_page : Z := 20.

Definition get_pagination_info (json_data : value) : result value :=
  try_except
    (if negb (truthy json_data) then Ok (VDict ∅) else
     search_results ← extract_search_results json_data;
     if negb (truthy search_results) then Ok (VDict ∅) else
     total_results ←
       (a ← py_get search_results "totalResultCount" VNone;
        py_or a
          (b ← py_get search_results "totalResults" VNone;
           py_or b
             (c ← py_get search_results "resultCount" VNone;
              py_or c (Ok (VInt 0)))));
     total_pages ←
       (s ← py_add_int total_results results_per_page;
        s ← py_sub_int s 1;
        py_floordiv_int s results_per_page);
     pagination ←
       (search_list ← py_get search_results "searchList" (VDict ∅);
        a ← py_get search_list "pagination" (VDict ∅);
        py_or a
          (b ← py_get search_results "pagination" (VDict ∅);
           py_or b (Ok (VDict ∅))));
     current_page ← py_get pagination "currentPage" (VInt 1);
     Ok (VDict (list_to_map
       [ ("current_page", current_page);
         ("total_pages", total_pages);
         ("total_results", total_results) ])))
    [ (is_Exception, λ _, Ok (VDict ∅)) ].

End Parser.

(* ================================================================== *)
(** ** scraper.py: [NimbleScraper] *)
(* ================================================================== *)

Module Scraper.
Import Py.

(** What [requests.post] hands back: a response with its status code and
    what [response.json()] makes of its body, or one of the transport
    errors of [requests] (all of them [RequestException]s; [HTTPError]
    comes from [raise_for_status] alone). Decoding the body gives the
    value, or raises: the [JSONDecodeError] of [requests] (an
    [InvalidJSONError]) for a body that is not JSON, and what
    [json.loads] raises otherwise, such as a [ValueError] for an integer
    of more than 4300 digits or a [RecursionError], neither of them a
    [RequestException]. *)
Record response : Type := { status_code : Z; json : result value }.

Inductive transport_error : Type := NoConnection | TimedOut.

Definition exn_of (t : transport_error) : exn :=
  match t with NoConnection => ConnectionError | TimedOut => Timeout end.

Inductive post_outcome : Type :=
| Failed (t : transport_error)
| Responded (r : response).

(** One POST to the rendering API: the payload's [url] and [render]
    fields, and what came back. *)
Record request : Type :=
  { req_url : string; req_render : bool; req_outcome : post_outcome }.

(** An anchor BeautifulSoup found: [next_link.get('aria-disabled')]. *)
Record tag : Type := { aria_disabled : option string }.

(** Everything outside the repository that the scraper calls. *)
Record world : Type := {
  (** [requests.post(api_url, headers, json=payload, timeout=120)], after
      the requests already made. *)
  post : list request → string → bool → post_outcome;
  (** [BeautifulSoup(html, 'html.parser').find('a', rel='next')]. *)
  find_next_link : value → result (option tag);
  (** [parse_qs(urlparse(base_url).query)] at ['searchQueryState'], first
      value, unquoted; [None] when the query has no such key. *)
  search_query_state : string → option string;
  (** [json.loads]. *)
  json_loads : string → result value;
  (** Lines 167-189: the URL rebuilt around [json.dumps(state)], with the
      [<page>_p] path segment. *)
  rebuild_url : string → value → Z → string;
  (** [json.dumps(data, indent=2)]: ASCII text, or what the encoder
      raises (a [RecursionError] on deep nesting). *)
  json_dumps : value → result string;
  (** [repr] of a float, list or dict, for [py_str]. *)
  value_repr : value → result string
}.

(** The scraper's computations: they may raise, and they add to the log
    of requests made so far. *)
Definition M (A : Type) : Type := list request → result A * list request.

#[global] Instance M_ret : MRet M := λ A a log, (Ok a, log).
#[global] Instance M_bind : MBind M := λ A B f m log,
  match m log with
  | (Ok a, log') => f a log'
  | (Raise e, log') => (Raise e, log')
  end.

Definition lift {A} (r : result A) : M A := λ log, (r, log).

(** [response.raise_for_status()]. *)
Definition raise_for_status (r : response) : result unit :=
  if (400 <=? status_code r) && (status_code r <? 600)
  then Raise HTTPError else Ok tt.

(** [response.json()]. *)
Definition response_json (r : response) : result value := json r.

(** [print(f"...: {v}")]: the value is turned into text, and the message
    printed. *)
Definition print_value (w : world) (v : value) : result unit :=
  text ← py_str (value_repr w) v;
  py_print text.

(** The [try] block of [fetch_page] after [requests.post] returned, and
    its two [except] clauses. The block prints the first 2000 characters
    of [json.dumps(data, indent=2)] (ASCII text), then two status
    messages, with [data.get('status')] and, under
    ["render_flow" in data], [data['render_flow'].get('success')]. The
    messages before them show the URL, which is ASCII, and the HTTP
    status code; those of the handlers show the exception and the
    response text, decoded with replacement characters. *)
Definition fetch_result (w : world) (o : post_outcome) : result value :=
  try_except
    (response ←
       match o with
       | Failed t => Raise (exn_of t)
       | Responded r => Ok r
       end;
     _ ← raise_for_status response;
     data ← response_json response;
     _ ← json_dumps w data;
     status ← py_get data "status" VNone;
     _ ← print_value w status;
     _ ← (if dict_has data "render_flow"
          then render_flow ← py_getitem data "render_flow";
               success ← py_get render_flow "success" VNone;
               print_value w success
          else Ok tt);
     Ok data)
    [ (is_HTTPError, λ _, Ok VNone);
      (is_RequestException, λ _, Ok VNone) ].

Definition fetch_page (w : world) (url : string) (render : bool) : M value :=
  λ log,
    let o := post w log url render in
    (fetch_result w o,
     log ++ [ {| req_url := url; req_render := render; req_outcome := o |} ]).

Definition fetch_page_with_url_state (w : world) (base_url : string)
    (page_number : Z) : M value :=
  match search_query_state w base_url with
  | Some state_json =>
      state ← lift (json_loads w state_json);
      state ← lift (py_setitem state "pagination"
                      (VDict {[ "currentPage" := VInt page_number ]}));
      fetch_page w (rebuild_url w base_url state page_number) true
  | None => fetch_page w base_url true
  end.

(** One page of [fetch_all_pages]: the list so far with this page's
    record, and whether the loop goes on ([false] is a [break]). *)
Definition fetch_one (w : world) (base_url : string) (page_num : Z)
    (all_pages : list value) : M (list value * bool) :=
  result ←
    (if page_num =? 1 then fetch_page w base_url true
     else fetch_page_with_url_state w base_url page_num);
  if negb (truthy result) then mret (all_pages, false) else
  let all_pages :=
    all_pages ++
      [ VDict (list_to_map
          [ ("page_number", VInt page_num);
            ("url", VStr base_url);
            ("data", result) ]) ] in
  html ← lift
    (a ← py_get result "html_content" VNone;
     py_or a
       (b ← py_get result "rendered_html" VNone;
        py_or b
          (c ← py_get result "browser_html" VNone;
           py_or c (py_get result "html" VNone))));
  if negb (truthy html) then mret (all_pages, false) else
  next_link ← lift (find_next_link w html);
  match next_link with
  | None => mret (all_pages, false)
  | Some a =>
      if bool_decide (aria_disabled a = Some "true")
      then mret (all_pages, false)
      else mret (all_pages, true)
  end.

(** [for page_num in page_nums: ...]. *)
Fixpoint fetch_loop (w : world) (base_url : string) (page_nums : list Z)
    (all_pages : list value) : M (list value) :=
  match page_nums with
  | [] => mret all_pages
  | page_num :: rest =>
      step ← fetch_one w base_url page_num all_pages;
      let '(all_pages, continue) := (step : list value * bool) in
      if continue then fetch_loop w base_url rest all_pages
      else mret all_pages
  end.

(** [range(1, max_pages + 1)] is [seqZ 1 max_pages]: empty when
    [max_pages <= 0]. *)
Definition fetch_all_pages (w : world) (base_url : string) (max_pages : Z)
    : M (list value) :=
  fetch_loop w base_url (seqZ 1 max_pages) [].

End Scraper.

(* ================================================================== *)
(** ** [fetch_page_with_url_state]: the path of a page's URL *)
(* ================================================================== *)

Module UrlPath.

Definition is_slash (c : ascii) : bool := Ascii.eqb c "/".

(** [s.rstrip('/')]. *)
Fixpoint rstrip_slash (s : string) : string :=
  match s with
  | EmptyString => EmptyString
  | String c rest =>
      match rstrip_slash rest with
      | EmptyString => if is_slash c then EmptyString else String c EmptyString
      | stripped => String c stripped
      end
  end.

(** [s.split('/')]. *)
Fixpoint split_slash (s : string) : list string :=
  match s with
  | EmptyString => [EmptyString]
  | String c rest =>
      if is_slash c then EmptyString :: split_slash rest
      else
        match split_slash rest with
        | first :: others => String c first :: others
        | [] => [String c EmptyString]
        end
  end.

(** ['/'.join(parts)]. *)
Fixpoint join_slash (parts : list string) : string :=
  match parts with
  | [] => EmptyString
  | [part] => part
  | part :: rest => part +:+ "/" +:+ join_slash rest
  end.

(** [s.endswith(suffix)]. *)
Fixpoint endswith (s suffix : string) : bool :=
  String.eqb s suffix
  || match s with
     | EmptyString => false
     | String _ rest => endswith rest suffix
     end.

(** [f'{page_number}_p']. *)
Definition page_segment (page_number : Z) : string :=
  pretty page_number +:+ "_p".

(** Lines 171-179 of [fetch_page_with_url_state]: the path of the URL
    for a page, from [parsed.path]. *)
Definition new_path (path : string) (page_number : Z) : string :=
  let path_parts := split_slash (rstrip_slash path) in
  let path_parts := List.filter (λ p, negb (endswith p "_p")) path_parts in
  let path_parts :=
    if 1 <? page_number then path_parts ++ [page_segment page_number]
    else path_parts in
  join_slash path_parts +:+ "/".

(** A part that is no page segment: what the filter of line 173 keeps. *)
Definition not_page (p : string) : bool := negb (endswith p "_p").

(** The string has a ['/']. *)
Fixpoint has_slash (s : string) : bool :=
  match s with
  | EmptyString => false
  | String c rest => is_slash c || has_slash rest
  end.

End UrlPath.

(* ================================================================== *)
(** ** [scrape_with_pagination.py]: fetching and parsing all pages *)
(* ================================================================== *)

Module Driver.
Import Py Parser Scraper.

(** The exceptions [scrape_all_pages_and_parse] can meet: those of the
    scraper and the parser, and whatever else the libraries below raise,
    by class name. *)
Inductive error : Type :=
| Library (e : exn)
| Other (class : string).

Inductive run (A : Type) : Type :=
| Returns (a : A)
| Raises (e : error).
Arguments Returns {A} a.
Arguments Raises {A} e.

#[global] Instance run_ret : MRet run := @Returns.
#[global] Instance run_bind : MBind run := λ A B f m,
  match m with
  | Returns a => f a
  | Raises e => Raises e
  end.

Definition of_result {A} (r : result A) : run A :=
  match r with
  | Ok a => Returns a
  | Raise e => Raises (Library e)
  end.

(** What the driver calls outside the three modules. *)
Record env : Type := {
  (** [repr] of a value, as [parse_property] formats it, or the
      exception it raises. *)
  repr : value → result string;
  (** [ZillowParser(html)] followed by [extract_json_data()]: the
      constructor (BeautifulSoup, and the export of the soup to a file)
      may raise; [extract_json_data] returns the JSON data of the page
      or [None]. *)
  load_json : value → run value;
  (** [float(val.replace('$', '').replace(',', '').strip())], [None]
      standing for its [ValueError]. *)
  to_float : string → option float;
  (** [min], [max] and [sum(xs) / len(xs)] on a non-empty list; they
      raise on values they cannot compare or add. *)
  py_min : list value → run value;
  py_max : list value → run value;
  average : list value → run value
}.

Section Scrape.
Variable E : env.
Variable w : world.

(** [ZillowParser.parse_listings(html)]. *)
Definition parse_listings (html : value) : run (list value) :=
  json_data ← load_json E html;
  of_result (parse_all_properties (repr E) json_data).

(** Lines 69-71: the two keys added to each listing of a page. *)
Fixpoint tag_listings (listings : list value) (page_num page_url : value)
    : run (list value) :=
  match listings with
  | [] => Returns []
  | listing :: rest =>
      listing ← of_result (py_setitem listing "page_number" page_num);
      listing ← of_result (py_setitem listing "page_url" page_url);
      rest ← tag_listings rest page_num page_url;
      Returns (listing :: rest)
  end.

(** Lines 46-83: [for page_info in all_pages]; a page without HTML is
    skipped ([continue]). *)
Fixpoint parse_pages (all_pages all_listings page_summaries : list value)
    : run (list value * list value) :=
  match all_pages with
  | [] => Returns (all_listings, page_summaries)
  | page_info :: rest =>
      page_num ← of_result (py_getitem page_info "page_number");
      page_url ← of_result (py_getitem page_info "url");
      page_data ← of_result (py_getitem page_info "data");
      html ← of_result
        (a ← py_get page_data "html_content" VNone;
         py_or a
           (b ← py_get page_data "rendered_html" VNone;
            py_or b
              (c ← py_get page_data "browser_html" VNone;
               py_or c (py_get page_data "html" VNone))));
      if negb (truthy html) then parse_pages rest all_listings page_summaries
      else
        listings ← parse_listings html;
        listings ← tag_listings listings page_num page_url;
        parse_pages rest (all_listings ++ listings)
          (page_summaries ++
             [ VDict (list_to_map
                 [ ("page", page_num); ("url", page_url);
                   ("listings_count", VInt (Z.of_nat (length listings))) ]) ])
  end.

(** Lines 98-111: [to_number]. *)
Definition to_number (val : value) : value :=
  match val with
  | VNone => VNone
  | VBool _ | VInt _ | VFloat _ => val
  | VStr s =>
      match to_float E s with
      | Some f => VFloat f
      | None => VNone
      end
  | _ => VNone
  end.

(** [p is not None and p > 0]; a [bool] counts as the integer it is. *)
Definition is_positive (p : value) : run bool :=
  match p with
  | VNone => Returns false
  | VBool b => Returns b
  | VInt n => Returns (0 <? n)
  | VFloat f => Returns (0 <? f)%float
  | _ => Raises (Library TypeError)
  end.

Fixpoint keep_positive (nums : list value) : run (list value) :=
  match nums with
  | [] => Returns []
  | p :: rest =>
      keep ← is_positive p;
      rest ← keep_positive rest;
      Returns (if (keep : bool) then p :: rest else rest)
  end.

Fixpoint numbers_at (key : string) (all_listings : list value)
    : run (list value) :=
  match all_listings with
  | [] => Returns []
  | l :: rest =>
      val ← of_result (py_get l key VNone);
      rest ← numbers_at key rest;
      Returns (to_number val :: rest)
  end.

(** Lines 114-121, and the same lines for beds (124-131) and baths
    (134-141): the statistics of the listings' values at [key], or
    nothing when no value at [key] is a positive number. *)
Definition stats_at (key : string) (all_listings : list value)
    : run (option value) :=
  nums ← numbers_at key all_listings;
  nums ← keep_positive nums;
  match nums with
  | [] => Returns None
  | _ =>
      lo ← py_min E nums;
      hi ← py_max E nums;
      avg ← average E nums;
      Returns (Some (VDict (list_to_map
        [ ("min", lo); ("max", hi); ("average", avg) ])))
  end.

Definition add_stats (summary_stats : gmap string value) (name : string)
    (stats : option value) : gmap string value :=
  match stats with
  | Some s => <[name := s]> summary_stats
  | None => summary_stats
  end.

(** Lines 90-141. *)
Definition summarize (all_pages all_listings page_summaries : list value)
    : run value :=
  let summary_stats : gmap string value :=
    list_to_map
      [ ("total_pages", VInt (Z.of_nat (length all_pages)));
        ("total_listings", VInt (Z.of_nat (length all_listings)));
        ("pages", VList page_summaries) ] in
  match all_listings with
  | [] => Returns (VDict summary_stats)
  | _ =>
      prices ← stats_at "price" all_listings;
      let summary_stats := add_stats summary_stats "price_stats" prices in
      beds ← stats_at "beds" all_listings;
      let summary_stats := add_stats summary_stats "beds_stats" beds in
      baths ← stats_at "baths" all_listings;
      let summary_stats := add_stats summary_stats "baths_stats" baths in
      Returns (VDict summary_stats)
  end.

(** [scrape_all_pages_and_parse]: the pair it returns, and the requests
    made. *)
Definition scrape_all_pages_and_parse (base_url : string) (max_pages : Z)
    (log : list request) : run (list value * value) * list request :=
  match fetch_all_pages w base_url max_pages log with
  | (Raise e, log) => (Raises (Library e), log)
  | (Ok all_pages, log) =>
      (match all_pages with
       | [] => Returns ([], VDict ∅)
       | _ =>
           parsed ← parse_pages all_pages [] [];
           let '(all_listings, page_summaries) :=
             (parsed : list value * list value) in
           summary_stats ← summarize all_pages all_listings page_summaries;
           Returns (all_listings, summary_stats)
       end, log)
  end.

End Scrape.

End Driver.

(* ================================================================== *)
(** ** [ZillowParser.get_summary_stats] *)
(* ================================================================== *)

Module Summary.
Import Py Driver.

Section Stats.
Variable E : env.

(** [[p[key] for p in properties if p.get(key)]]. *)
Fixpoint values_at (key : string) (properties : list value)
    : run (list value) :=
  match properties with
  | [] => Returns []
  | p :: rest =>
      test ← of_result (py_get p key VNone);
      if truthy test then
        v ← of_result (py_getitem p key);
        rest ← values_at key rest;
        Returns (v :: rest)
      else values_at key rest
  end.

(** [sum(1 for p in properties if p.get(key))]. *)
Fixpoint count_at (key : string) (properties : list value) : run Z :=
  match properties with
  | [] => Returns 0
  | p :: rest =>
      test ← of_result (py_get p key VNone);
      n ← count_at key rest;
      Returns (if truthy test then 1 + n else n)
  end.

(** [properties] is [self.properties], the list [parse_all_properties]
    stored. *)
Definition get_summary_stats (properties : list value) : run value :=
  match properties with
  | [] => Returns (VDict ∅)
  | _ =>
      prices ← values_at "price_numeric" properties;
      areas ← values_at "area_sqft" properties;
      bedrooms ← values_at "bedrooms" properties;
      with_images ← count_at "has_image" properties;
      featured ← count_at "is_featured" properties;
      let stats : gmap string value :=
        list_to_map
          [ ("total_properties", VInt (Z.of_nat (length properties)));
            ("with_images", VInt with_images);
            ("featured", VInt featured) ] in
      stats ←
        match prices with
        | [] => Returns stats
        | _ =>
            avg ← average E prices;
            lo ← py_min E prices;
            hi ← py_max E prices;
            Returns (<["max_price" := hi]>
                       (<["min_price" := lo]> (<["avg_price" := avg]> stats)))
        end;
      stats ←
        match areas with
        | [] => Returns stats
        | _ => avg ← average E areas; Returns (<["avg_area" := avg]> stats)
        end;
      stats ←
        match bedrooms with
        | [] => Returns stats
        | _ =>
            avg ← average E bedrooms;
            Returns (<["avg_bedrooms" := avg]> stats)
        end;
      Returns (VDict stats)
  end.

End Stats.

(** Some property has a truthy value at [key]. *)
Definition some_truthy (key : string) (properties : list value) : Prop :=
  Exists (λ p, ∃ (d : gmap string value) v,
            p = VDict d ∧ d !! key = Some v ∧ truthy v = true) properties.

End Summary.

(* ================================================================== *)
(** ** Specification vocabulary for the parser *)
(* ================================================================== *)

Module ParserSpec.
Import Py Parser.

(** A dict literal. *)
Definition dict (l : list (string * value)) : value := VDict (list_to_map l).

(** [d.get(key, dflt)] as a plain function on the map. *)
Definition field (d : gmap string value) (key : string) (dflt : value)
    : value :=
  default dflt (d !! key).

(** The dict stored under [key]; the empty dict when [key] is absent or
    holds something else. *)
Definition nested (d : gmap string value) (key : string)
    : gmap string value :=
  match d !! key with Some (VDict d') => d' | _ => ∅ end.

Definition dict_or_absent (o : option value) : bool :=
  from_option is_dict true o.

Definition is_str (v : value) : bool :=
  match v with VStr _ => true | _ => false end.

(** *** Paths into the page state *)

Definition main_path : list string :=
  ["props"; "pageProps"; "searchPageState"; "cat1"; "searchResults"].

(** The value at a path: every key on the way must be present in a
    dict. *)
Fixpoint value_at (v : value) (path : list string) : option value :=
  match path with
  | [] => Some v
  | key :: rest =>
      match v with
      | VDict d => v' ← d !! key; value_at v' rest
      | _ => None
      end
  end.

(** A path is blocked when one of its keys has to be read from a value
    that is present and is not a dict. *)
Fixpoint blocked (v : value) (path : list string) : bool :=
  match path with
  | [] => false
  | key :: rest =>
      match v with
      | VDict d => from_option (λ v', blocked v' rest) false (d !! key)
      | _ => true
      end
  end.

(** "A non-empty dict containing the key 'listResults'". *)
Definition is_listing (v : value) : bool :=
  truthy v && is_dict v && dict_has v "listResults".

Definition hit (json_data : value) (path : list string) : option value :=
  v ← value_at json_data path; if is_listing v then Some v else None.

(** The first alternative path, in the listed order, that holds a
    listing dict; [None] when there is none. *)
Definition first_alternative (json_data : value) : value :=
  default VNone (head (omap (hit json_data) alternative_paths)).

(** The spec's words for [extract_search_results]: the value at the main
    path when it is non-empty, otherwise the first alternative. *)
Definition extract_search_results_spec (json_data : value) : value :=
  match value_at json_data main_path with
  | Some v => if truthy v then v else first_alternative json_data
  | None => first_alternative json_data
  end.

(** *** Property records *)

(** The nested lookups of [parse_property] succeed: [hdpData], its
    [homeInfo], [variableData] and [latLong] are dicts where present, and
    a non-empty [detailUrl] is a string. *)
Definition well_shaped (d : gmap string value) : bool :=
  dict_or_absent (d !! "hdpData")
  && dict_or_absent (nested d "hdpData" !! "homeInfo")
  && dict_or_absent (d !! "variableData")
  && dict_or_absent (d !! "latLong")
  && from_option (λ u, negb (truthy u) || is_str u) true (d !! "detailUrl").

Definition absolute_url (u : value) : value :=
  match u with
  | VStr s =>
      if truthy u && negb (String.prefix "http" s)
      then VStr ("https://www.zillow.com" +:+ s) else u
  | _ => u
  end.

Definition known_keys_list : list string :=
  [ "zpid"; "address"; "city"; "state"; "zipcode"; "full_address"; "price";
    "price_numeric"; "bedrooms"; "bathrooms"; "area_sqft"; "property_type";
    "listing_type"; "listing_status"; "detail_url"; "image_url"; "lot_area";
    "lot_area_unit"; "year_built"; "days_on_zillow"; "latitude"; "longitude";
    "broker_name"; "has_image"; "is_featured" ].

Definition known_keys : gset string := list_to_set known_keys_list.

Definition has_known_keys (v : value) : Prop :=
  ∃ rec, v = VDict rec ∧ dom rec = known_keys.

(** The text of ['full_address'], when its four parts convert to text. *)
Definition address_text (repr : value → result string)
    (d : gmap string value) : result string :=
  address ← py_str repr (field d "addressStreet" (VStr ""));
  city ← py_str repr (field d "addressCity" (VStr ""));
  state ← py_str repr (field d "addressState" (VStr ""));
  zipcode ← py_str repr (field d "addressZipcode" (VStr ""));
  Ok (address +:+ ", " +:+ city +:+ ", " +:+ state +:+ " " +:+ zipcode).

Definition address_formats (repr : value → result string)
    (d : gmap string value) : bool :=
  match address_text repr d with Ok _ => true | Raise _ => false end.

(** What the handler of [parse_property] does with a dict: it forms the
    text of the dict's zpid (of ['unknown'] without one) and prints it. *)
Definition reported (repr : value → result string) (d : gmap string value)
    : result value :=
  text ← py_str repr (field d "zpid" (VStr "unknown"));
  _ ← py_print text;
  Ok VNone.

(** The value converts to text, and the text can be printed. *)
Definition prints (repr : value → result string) (v : value) : bool :=
  match py_str repr v with
  | Ok text => negb (has_surrogate text)
  | Raise _ => false
  end.

Definition zpid_prints (repr : value → result string)
    (d : gmap string value) : bool :=
  prints repr (field d "zpid" (VStr "unknown")).

(** The record [parse_property] builds from a well-shaped dict whose
    address parts convert to text. *)
Definition record (repr : value → result string) (d : gmap string value)
    : gmap string value :=
  let home_info := nested (nested d "hdpData") "homeInfo" in
  let address := field d "addressStreet" (VStr "") in
  let city := field d "addressCity" (VStr "") in
  let state := field d "addressState" (VStr "") in
  let zipcode := field d "addressZipcode" (VStr "") in
  list_to_map
    [ ("zpid", field d "zpid" VNone);
      ("address", address);
      ("city", city);
      ("state", state);
      ("zipcode", zipcode);
      ("full_address",
         VStr (match address_text repr d with
               | Ok text => text
               | Raise _ => EmptyString
               end));
      ("price", field d "price" VNone);
      ("price_numeric", field d "unformattedPrice" (VInt 0));
      ("bedrooms", field d "beds" VNone);
      ("bathrooms", field d "baths" VNone);
      ("area_sqft", field d "area" VNone);
      ("property_type", field home_info "homeType" (VStr ""));
      ("listing_type", field d "statusType" (VStr ""));
      ("listing_status", field d "statusText" (VStr ""));
      ("detail_url", absolute_url (field d "detailUrl" (VStr "")));
      ("image_url", field d "imgSrc" (VStr ""));
      ("lot_area", field d "lotAreaValue" VNone);
      ("lot_area_unit", field d "lotAreaUnit" (VStr ""));
      ("year_built", field home_info "yearBuilt" VNone);
      ("days_on_zillow", field (nested d "variableData") "text" (VStr ""));
      ("latitude", field (nested d "latLong") "latitude" VNone);
      ("longitude", field (nested d "latLong") "longitude" VNone);
      ("broker_name", field d "brokerName" (VStr ""));
      ("has_image", field d "hasImage" (VBool false));
      ("is_featured", field d "isFeatured" (VBool false)) ].

(** *** Listing arrays and pagination *)

(** The first non-empty (truthy) value stored under one of [keys]. *)
Fixpoint first_truthy (d : gmap string value) (keys : list string)
    : option value :=
  match keys with
  | [] => None
  | key :: rest =>
      match d !! key with
      | Some v => if truthy v then Some v else first_truthy d rest
      | None => first_truthy d rest
      end
  end.

Definition total_results_of (sr : gmap string value) : value :=
  default (VInt 0)
    (first_truthy sr ["totalResultCount"; "totalResults"; "resultCount"]).

(** The integer a Python [int] or [bool] stands for. *)
Definition as_int (v : value) : option Z :=
  match v with
  | VInt n => Some n
  | VBool b => Some (Z.b2z b)
  | _ => None
  end.

(** A count that came as a float holding the integer [n] (JSON [41.0]),
    and the page count the arithmetic of [get_pagination_info] gives for
    a float. [checked_counts] bounds the float counts for which that
    arithmetic is evaluated here. *)
Definition float_count (n : Z) : value := VFloat (float_of_literal n).

Definition float_pages (f : float) : float :=
  float_floordiv
    (f + float_of_literal results_per_page - float_of_literal 1)%float
    (float_of_literal results_per_page).

Definition checked_counts : Z := 100000.

Definition float_pages_agree (n : Z) : bool :=
  PrimFloat.Leibniz.eqb (float_pages (float_of_literal n))
    (float_of_literal ((n + 19) / 20)).

(** The counts [n], [n + 1], ..., [k] of them, agree. *)
Fixpoint float_pages_agree_from (n : Z) (k : nat) : bool :=
  match k with
  | O => true
  | S k' => float_pages_agree n && float_pages_agree_from (n + 1) k'
  end.

Definition pagination_found (sr : gmap string value) : bool :=
  truthy (field (nested sr "searchList") "pagination" (VDict ∅))
  || truthy (field sr "pagination" (VDict ∅)).

(** *** Sample inputs *)

(** A [repr] for the examples (it only shows in [full_address]). *)
Definition repr_sample (v : value) : result string := Ok "<repr>".

(** The page state around a search-results value, on the main path. *)
Definition page_state (search_results : value) : value :=
  dict [("props", dict [("pageProps", dict [("searchPageState",
    dict [("cat1", dict [("searchResults", search_results)])])])])].

(** [cat1] is [null]; the first alternative path holds a listing dict. *)
Definition cat1_null : value :=
  dict [("props", dict [("pageProps", dict [("searchPageState",
    dict [ ("cat1", VNone);
           ("searchResults", dict [("listResults", VList [])]) ])])])].

Definition listing : gmap string value :=
  list_to_map
    [ ("zpid", VStr "13350271");
      ("addressStreet", VStr "1420 Grant St");
      ("addressCity", VStr "Denver");
      ("addressState", VStr "CO");
      ("addressZipcode", VStr "80203");
      ("price", VStr "$4,200/mo");
      ("beds", VInt 5);
      ("baths", VInt 3);
      ("detailUrl", VStr "/homedetails/13350271_zpid/");
      ("latLong", dict [("latitude", VInt 39); ("longitude", VInt (-104))]) ].

(** The same listing with [latLong: null]. *)
Definition listing_null_latlong : gmap string value :=
  <["latLong" := VNone]> listing.

(** A listing whose street address is an integer of 4301 digits, and
    one with such a zpid and [latLong: null]. *)
Definition long_address : gmap string value :=
  list_to_map
    [ ("zpid", VInt 1); ("addressStreet", VInt (10 ^ max_str_digits)) ].

Definition long_zpid : gmap string value :=
  list_to_map
    [ ("zpid", VInt (10 ^ max_str_digits)); ("latLong", VNone) ].

(** An empty [listResults] next to [mapResults: null]. *)
Definition null_map_results : value :=
  page_state (dict [("listResults", VList []); ("mapResults", VNone)]).

Definition count_41 : value :=
  page_state (dict [("totalResultCount", VInt 41)]).

Definition count_41_info : gmap string value :=
  list_to_map
    [ ("current_page", VInt 1); ("total_pages", VInt 3);
      ("total_results", VInt 41) ].

Definition count_41_float : value :=
  page_state (dict [("totalResultCount", float_count 41)]).

End ParserSpec.

(* ================================================================== *)
(** ** Specification vocabulary for the scraper *)
(* ================================================================== *)

Module ScraperSpec.
Import Py Scraper.

(** The URL [fetch_all_pages] asks [fetch_page] to fetch for a page:
    [base_url] for page 1, and for a later page what
    [fetch_page_with_url_state] builds. Decoding the URL state may
    raise. *)
Definition url_of_page (w : world) (base_url : string) (page_num : Z)
    : result string :=
  if page_num =? 1 then Ok base_url
  else
    match search_query_state w base_url with
    | Some state_json =>
        state ← json_loads w state_json;
        state ← py_setitem state "pagination"
                  (VDict {[ "currentPage" := VInt page_num ]});
        Ok (rebuild_url w base_url state page_num)
    | None => Ok base_url
    end.

(** The log entry of a POST for [url] made after [log]. *)
Definition sent (w : world) (log : list request) (url : string) : request :=
  {| req_url := url; req_render := true; req_outcome := post w log url true |}.

Definition html_keys : list string :=
  ["html_content"; "rendered_html"; "browser_html"; "html"].

(** Lines 112-117: the first non-empty HTML field. *)
Definition html_of (data : value) : result value :=
  a ← py_get data "html_content" VNone;
  py_or a
    (b ← py_get data "rendered_html" VNone;
     py_or b
       (c ← py_get data "browser_html" VNone;
        py_or c (py_get data "html" VNone))).

(** The messages [fetch_page] prints about a decoded dict can be formed
    and printed: the dump, the status, and the 'success' entry of
    'render_flow' when there is one, which has to be a dict. *)
Definition reports (w : world) (d : gmap string value) : Prop :=
  (∃ dump, json_dumps w (VDict d) = Ok dump) ∧
  print_value w (default VNone (d !! "status")) = Ok tt ∧
  match d !! "render_flow" with
  | None => True
  | Some (VDict flow) =>
      print_value w (default VNone (flow !! "success")) = Ok tt
  | Some _ => False
  end.

Definition enabled (a : tag) : bool :=
  negb (bool_decide (aria_disabled a = Some "true")).

(** Lines 119-131: whether the loop goes on after a fetched page. *)
Definition next_page_available (w : world) (data : value) : result bool :=
  html ← html_of data;
  if truthy html then
    next_link ← find_next_link w html;
    Ok (from_option enabled false next_link)
  else Ok false.

Definition page_record (page_num : Z) (base_url : string) (data : value)
    : value :=
  VDict (list_to_map
    [ ("page_number", VInt page_num); ("url", VStr base_url);
      ("data", data) ]).

(** What [fetch_one] does once the POST came back with [o]. *)
Definition after_fetch (w : world) (base_url : string) (page_num : Z)
    (all_pages : list value) (o : post_outcome)
    : result (list value * bool) :=
  r ← fetch_result w o;
  if truthy r then
    continue ← next_page_available w r;
    Ok (all_pages ++ [page_record page_num base_url r], continue)
  else Ok (all_pages, false).

(** The fetch behind a log entry succeeded and its page announces a next
    page. *)
Definition continues (w : world) (rq : request) : Prop :=
  ∃ data,
    fetch_result w (req_outcome rq) = Ok data ∧
    truthy data = true ∧
    next_page_available w data = Ok true.

(** *** Sample worlds *)

Definition zillow_url : string :=
  "https://www.zillow.com/denver-co/rentals/".

(** Two result pages as the rendering API returns them: the first has
    an enabled next link, the last a disabled one. *)
Definition first_html : string :=
  "<a rel='next' href='/denver-co/rentals/2_p/'>Next</a>".

Definition last_html : string :=
  "<a rel='next' aria-disabled='true' href='#'>Next</a>".

Definition page_body (html : string) : value :=
  VDict (list_to_map
    [ ("status", VStr "success"); ("html_content", VStr html) ]).

(** The built-ins on the sample pages: a stand-in for the text of a dump
    and of a [repr], which are only printed. *)
Definition dumps_sample (v : value) : result string := Ok "{...}".

(** What BeautifulSoup finds in those two pages (it accepts markup that
    is a string). *)
Definition find_in_sample (html : value) : result (option tag) :=
  match html with
  | VStr s =>
      if String.eqb s first_html then Ok (Some {| aria_disabled := None |})
      else if String.eqb s last_html
      then Ok (Some {| aria_disabled := Some "true" |})
      else Ok None
  | _ => Raise TypeError
  end.

(** A site of two result pages behind a URL with no [searchQueryState]:
    the first POST is answered with the first page, every later one with
    the last. *)
Definition two_pages : world :=
  {| post := λ log _ _,
       Responded
         {| status_code := 200;
            json := Ok (page_body
                            (match log with
                             | [] => first_html
                             | _ => last_html
                             end))
         |};
     find_next_link := find_in_sample;
     search_query_state := λ _, None;
     json_loads := λ _, Raise ValueError;
     rebuild_url := λ base_url _ _, base_url;
     json_dumps := dumps_sample;
     value_repr := dumps_sample |}.

(** A URL whose [searchQueryState] is not JSON, and the same site reached
    through it: [parse_qs] finds the state [oops], [json.loads] rejects
    it. *)
Definition bad_state_url : string :=
  "https://www.zillow.com/denver-co/rentals/?searchQueryState=oops".

Definition bad_state : world :=
  {| post := post two_pages;
     find_next_link := find_next_link two_pages;
     search_query_state := λ url,
       if String.eqb url bad_state_url then Some "oops" else None;
     json_loads := λ _, Raise ValueError;
     rebuild_url := rebuild_url two_pages;
     json_dumps := dumps_sample;
     value_repr := dumps_sample |}.

(** The API is down: every POST is answered with status 503. *)
Definition unavailable : world :=
  {| post := λ _ _ _,
       Responded {| status_code := 503; json := Raise InvalidJSONError |};
     find_next_link := find_next_link two_pages;
     search_query_state := search_query_state two_pages;
     json_loads := json_loads two_pages;
     rebuild_url := rebuild_url two_pages;
     json_dumps := dumps_sample;
     value_repr := dumps_sample |}.

(** The API answers 200 with [{"status": "success", "render_flow": null}]. *)
Definition render_flow_null : world :=
  {| post := λ _ _ _,
       Responded
         {| status_code := 200;
            json := Ok (VDict (list_to_map
                      [ ("status", VStr "success"); ("render_flow", VNone) ]))
         |};
     find_next_link := find_next_link two_pages;
     search_query_state := search_query_state two_pages;
     json_loads := json_loads two_pages;
     rebuild_url := rebuild_url two_pages;
     json_dumps := dumps_sample;
     value_repr := dumps_sample |}.

End ScraperSpec.

(* ================================================================== *)
(** ** More vocabulary: what the parser keeps, sample runs *)
(* ================================================================== *)

Module ParserShapes.
Import Py Parser ParserSpec.

(** What [parse_property] keeps of one listing: its record, or nothing. *)
Definition kept_record (repr : value → result string) (item : value)
    : option value :=
  match item with
  | VDict d =>
      if truthy (field d "zpid" VNone) && well_shaped d
         && address_formats repr d
      then Some (VDict (record repr d)) else None
  | _ => None
  end.

(** The loop of [parse_all_properties] gets past the listing: it is a
    dict, and the one value the loop or the handler of [parse_property]
    prints for it converts to text that can be printed: the address of a
    listing that is kept, the zpid of one whose parsing fails. *)
Definition quiet (repr : value → result string) (item : value) : bool :=
  match item with
  | VDict d =>
      if negb (truthy (field d "zpid" VNone)) then true
      else if well_shaped d && address_formats repr d
      then prints repr (field d "addressStreet" (VStr ""))
      else zpid_prints repr d
  | _ => false
  end.

Definition pagination_keys : gset string :=
  {[ "current_page"; "total_pages"; "total_results" ]}.

(** Search results of two listings, the second with [latLong: null]. *)
Definition two_listings : value :=
  dict [("listResults", VList [VDict listing; VDict listing_null_latlong])].

End ParserShapes.

Module ScraperSites.
Import Py Scraper ScraperSpec.



(** The run of [fetch_all_pages] on the site of two pages: its records
    and its requests. *)
Definition two_pages_records : list value :=
  [ page_record 1 zillow_url (page_body first_html);
    page_record 2 zillow_url (page_body last_html) ].

Definition two_pages_log : list request :=
  [ sent two_pages [] zillow_url;
    sent two_pages [sent two_pages [] zillow_url] zillow_url ].

End ScraperSites.

Module DriverSpec.
Import Py Parser Scraper ParserSpec ScraperSpec ParserShapes ScraperSites.
Import Driver Summary.

(** The keys of a listing the driver returns. *)
Definition tag_keys : gset string :=
  known_keys ∪ {[ "page_number"; "page_url" ]}.

(** A listing as the driver returns it: a parsed record with the number
    and URL of the page it came from. *)
Definition tagged (base_url : string) (max_pages : Z) (l : value) : Prop :=
  ∃ (d : gmap string value) p,
    l = VDict d ∧ dom d = tag_keys ∧
    d !! "page_number" = Some (VInt p) ∧ 1 ≤ p ≤ max_pages ∧
    d !! "page_url" = Some (VStr base_url).

(** A record of [fetch_all_pages] whose data is a dict. *)
Definition fetched_page (base_url : string) (max_pages : Z) (v : value)
    : Prop :=
  ∃ p (d : gmap string value),
    v = page_record p base_url (VDict d) ∧ 1 ≤ p ≤ max_pages.

(** The ['listings_count'] of a page summary, and their sum. *)
Definition listings_count (summary : value) : Z :=
  match summary with
  | VDict d =>
      match d !! "listings_count" with
      | Some (VInt n) => n
      | _ => 0
      end
  | _ => 0
  end.

Definition counted (summaries : list value) : Z :=
  foldr (λ s n, listings_count s + n) 0 summaries.


(** The exception is one [min], [max] or the average raised on a
    non-empty list. *)
Definition raised_by_numbers (E : env) (e : error) : Prop :=
  ∃ xs, xs ≠ [] ∧
    (py_min E xs = Raises e ∨ py_max E xs = Raises e ∨
     average E xs = Raises e).

(** *** A sample run *)

(** [min], [max] and the average on the lists the samples need: small
    non-negative integers, where [sum(xs) / len(xs)] is the quotient of
    two exactly represented floats. *)
Definition small_ints (xs : list value) : option (list Z) :=
  ns ← mapM (λ v, match v with VInt n => Some n | _ => None end) xs;
  if forallb (λ n, 0 <=? n) ns && (foldr Z.add 0 ns <? 2 ^ 53)
  then Some ns else None.

Definition on_small_ints (f : Z → list Z → value) (xs : list value)
    : run value :=
  match small_ints xs with
  | Some (n :: ns) => Returns (f n ns)
  | _ => Raises (Other "NotImplementedError")
  end.

(** [sum] cannot add a string to the integer it starts from. *)
Definition sample_average (xs : list value) : run value :=
  if existsb is_str xs then Raises (Library TypeError)
  else
    on_small_ints (λ n ns,
      VFloat (PrimFloat.div
                (float_of_literal (foldr Z.add 0 (n :: ns)))
                (float_of_literal (Z.of_nat (length (n :: ns)))))) xs.

(** Every page holds the two sample listings. Their price, ['$4,200/mo'],
    is no float literal even without ['$'] and [','], so [float] rejects
    it. *)
Definition sample_env : env :=
  {| repr := repr_sample;
     load_json := λ _, Returns (page_state two_listings);
     to_float := λ _, None;
     py_min := on_small_ints (λ n ns, VInt (foldr Z.min n ns));
     py_max := on_small_ints (λ n ns, VInt (foldr Z.max n ns));
     average := sample_average |}.

Definition sample_listing (page : Z) : value :=
  VDict (<["page_url" := VStr zillow_url]>
           (<["page_number" := VInt page]> (record repr_sample listing))).

Definition sample_listings : list value :=
  [ sample_listing 1; sample_listing 2 ].

Definition sample_summary (page : Z) : value :=
  dict [ ("page", VInt page); ("url", VStr zillow_url);
         ("listings_count", VInt 1) ].

Definition sample_stats : value :=
  dict [ ("total_pages", VInt 2); ("total_listings", VInt 2);
         ("pages", VList [sample_summary 1; sample_summary 2]) ].

(** The statistics [get_summary_stats] gives for the one record parsed
    from the sample listings: it has 5 bedrooms, and no numeric price,
    area or image. *)
Definition sample_summary_stats : value :=
  dict [ ("total_properties", VInt 1); ("with_images", VInt 0);
         ("featured", VInt 0); ("avg_bedrooms", VFloat 5) ].

(** The sample listing with its beds as text. *)
Definition listing_beds_text : gmap string value :=
  <["beds" := VStr "two"]> listing.

End DriverSpec.

(* ================================================================== *)
(** ** Facts about the parser *)
(* ================================================================== *)

Module ParserProofs.
Import Py Parser ParserSpec.

Lemma py_get_dict d key dflt : py_get (VDict d) key dflt = Ok (field d key dflt).
Proof. done. Qed.

(** One step of symbolic evaluation: binds over [Ok]/[Raise], handlers,
    and [.get] on a known dict. *)
Tactic Notation "py_step" :=
  cbn [mbind result_bind mret result_ret try_except handle is_Exception negb
       py_startswith truthy is_dict andb orb from_option default];
  rewrite ?py_get_dict.
Tactic Notation "py_step" "in" hyp(H) :=
  cbn [mbind result_bind mret result_ret try_except handle is_Exception negb
       py_startswith truthy is_dict andb orb from_option default] in H;
  rewrite ?py_get_dict in H.

Lemma get_nested d k1 k2 dflt :
  py_get (field d k1 (VDict ∅)) k2 dflt =
    if dict_or_absent (d !! k1) then Ok (field (nested d k1) k2 dflt)
    else Raise AttributeError.
Proof.
  unfold field, nested, dict_or_absent.
  by destruct (d !! k1) as [[]|].
Qed.

(** *** Walking the page state *)

Lemma walk_empty path : walk (VDict ∅) path = Ok (VDict ∅).
Proof.
  induction path as [|key rest IH]; [done|].
  cbn. by rewrite lookup_empty.
Qed.

Lemma walk_spec path : ∀ v,
  walk v path =
    if blocked v path then Raise AttributeError
    else Ok (default (VDict ∅) (value_at v path)).
Proof.
  induction path as [|key rest IH]; intros v; [done|].
  destruct v; try done. cbn.
  destruct (d !! key) as [v'|]; cbn; [apply IH|apply walk_empty].
Qed.

Lemma blocked_value_at path : ∀ v,
  blocked v path = true → value_at v path = None.
Proof.
  induction path as [|key rest IH]; intros v; [done|].
  destruct v; try done. cbn. destruct (d !! key); cbn; [apply IH|done].
Qed.

Lemma head_hit_cons json_data path rest :
  head (omap (hit json_data) (path :: rest)) =
    match hit json_data path with
    | Some v => Some v
    | None => head (omap (hit json_data) rest)
    end.
Proof. cbn. by destruct (hit json_data path). Qed.

Lemma try_paths_spec json_data paths :
  try_paths json_data paths =
    default VNone (head (omap (hit json_data) paths)).
Proof.
  induction paths as [|path rest IH]; [done|].
  rewrite head_hit_cons. cbn [try_paths]. rewrite walk_spec. unfold hit.
  destruct (blocked json_data path) eqn:Hb.
  - rewrite (blocked_value_at _ _ Hb). cbn. apply IH.
  - destruct (value_at json_data path) as [v|]; cbn.
    + fold (is_listing v). destruct (is_listing v); cbn; [done|apply IH].
    + rewrite bool_decide_eq_true_2 by done. cbn. apply IH.
Qed.

Lemma extract_walk json_data :
  extract_search_results json_data =
    try_except
      (search_results ← walk json_data main_path;
       if negb (truthy search_results)
       then Ok (_try_alternative_paths json_data)
       else Ok search_results)
      [ (is_Exception, λ _, Ok VNone) ].
Proof.
  unfold extract_search_results. f_equal. cbn.
  repeat
    match goal with
    | |- context [py_get ?a ?b ?c] => destruct (py_get a b c); cbn; try done
    end.
Qed.

(** The function in closed form: it never raises. *)
Lemma extract_unblocked json_data :
  extract_search_results json_data =
    Ok (if blocked json_data main_path then VNone
        else
          let v := default (VDict ∅) (value_at json_data main_path) in
          if negb (truthy v) then first_alternative json_data else v).
Proof.
  rewrite extract_walk, walk_spec.
  destruct (blocked json_data main_path); [done|].
  unfold _try_alternative_paths. rewrite try_paths_spec.
  fold (first_alternative json_data). cbn.
  by destruct (negb (truthy _)).
Qed.

(** C2 (amended). For every JSON value: when a value met on the way down
    the fixed path props -> pageProps -> searchPageState -> cat1 ->
    searchResults is present and is not a dict, [extract_search_results]
    returns [None]; otherwise it returns the value at that path when it is
    non-empty, and else the value of the first of the three alternative
    paths, in their listed order, that is a non-empty dict containing
    ['listResults'], or [None] when there is none. It never raises. *)
Theorem extract_search_results_fallback (json_data : value) :
  extract_search_results json_data =
    Ok (if blocked json_data main_path then VNone
        else extract_search_results_spec json_data).
Proof.
  rewrite extract_unblocked. unfold extract_search_results_spec.
  destruct (blocked json_data main_path); [done|].
  destruct (value_at json_data main_path) as [v|]; cbn.
  - by destruct (truthy v).
  - by rewrite bool_decide_eq_true_2.
Qed.

(** C2, as stated, fails where [cat1] is [null]: the main path has no
    value, the first alternative path holds a listing dict, and the
    function returns [None] without trying it. *)
Lemma extract_search_results_skips_fallback :
  value_at cat1_null main_path = None ∧
  extract_search_results_spec cat1_null = dict [("listResults", VList [])] ∧
  extract_search_results cat1_null = Ok VNone.
Proof. repeat split; vm_compute; reflexivity. Qed.

(** *** Properties *)

Section Formatting.
Variable repr : value → result string.

Lemma detail_url_block (u : value) :
  (if truthy u then
     http ← py_startswith u "http";
     if negb http
     then text ← py_str repr u; Ok (VStr ("https://www.zillow.com" +:+ text))
     else Ok u
   else Ok u) =
  if negb (truthy u) || is_str u then Ok (absolute_url u)
  else Raise AttributeError.
Proof.
  destruct u as [|[]|n|f|s|l|d]; cbn [truthy negb orb is_str]; try done.
  - by destruct (negb (n =? 0)).
  - by destruct (negb (f =? 0)%float).
  - destruct s as [|c s]; [done|].
    cbn [py_startswith py_str mbind result_bind absolute_url truthy andb].
    by destruct (String.prefix "http" (String c s)).
  - by destruct l.
  - by destruct (negb (bool_decide (d = ∅))).
Qed.

(** The handler of [parse_property] on a dict. *)
Lemma handle_reported d e :
  handle e
    [ (is_Exception,
       λ _, zpid ← py_get (VDict d) "zpid" (VStr "unknown");
            text ← py_str repr zpid;
            _ ← py_print text;
            Ok VNone) ] = reported repr d.
Proof. done. Qed.

Lemma reported_ok d r : reported repr d = Ok r → r = VNone.
Proof.
  unfold reported. destruct (py_str repr _) as [text|]; [|done].
  cbn [mbind result_bind]. destruct (py_print text); [|done].
  by intros [= <-].
Qed.

Lemma reported_prints d :
  reported repr d = Ok VNone ↔ zpid_prints repr d = true.
Proof.
  unfold reported, zpid_prints, prints, py_print.
  destruct (py_str repr _) as [text|]; [|done]. cbn [mbind result_bind].
  by destruct (has_surrogate text).
Qed.

(** [parse_property] on a dict: [None] at once for a falsy zpid; the
    record when the nested lookups succeed and the address parts convert
    to text; and what the handler does otherwise. *)
Lemma parse_property_dict d :
  parse_property repr (VDict d) =
    if negb (truthy (field d "zpid" VNone)) then Ok VNone
    else if well_shaped d && address_formats repr d
    then Ok (VDict (record repr d))
    else reported repr d.
Proof.
  unfold parse_property.
  match goal with
  | |- try_except ?body _ = _ =>
      assert (Hbody :
        if negb (truthy (field d "zpid" VNone)) then body = Ok VNone
        else if well_shaped d && address_formats repr d
        then body = Ok (VDict (record repr d))
        else ∃ e, body = Raise e)
  end.
  { unfold well_shaped.
    replace (from_option _ true (d !! "detailUrl"))
      with (negb (truthy (field d "detailUrl" (VStr "")))
            || is_str (field d "detailUrl" (VStr "")))
      by (unfold field; by destruct (d !! "detailUrl")).
    rewrite !py_get_dict. py_step.
    destruct (truthy (field d "zpid" VNone)); cbn [negb]; [|done]. py_step.
    rewrite !get_nested.
    destruct (dict_or_absent (d !! "hdpData")); cbn [andb];
      [|by eexists]. py_step.
    rewrite !get_nested.
    destruct (dict_or_absent (nested d "hdpData" !! "homeInfo")); cbn [andb];
      [|by eexists].
    py_step. rewrite detail_url_block.
    destruct (dict_or_absent (d !! "variableData")) eqn:Hvar; cbn [andb].
    2:{ destruct (negb (truthy (field d "detailUrl" (VStr ""))) || is_str _);
          py_step; rewrite ?get_nested, ?Hvar; by eexists. }
    destruct (dict_or_absent (d !! "latLong")) eqn:Hlat; cbn [andb].
    2:{ destruct (negb (truthy (field d "detailUrl" (VStr ""))) || is_str _);
          py_step; rewrite ?get_nested, ?Hvar; py_step;
          rewrite ?get_nested, ?Hlat; by eexists. }
    destruct (negb (truthy (field d "detailUrl" (VStr ""))) || is_str _);
      cbn [andb]; [|by eexists].
    py_step. rewrite ?get_nested, ?Hvar. py_step.
    rewrite ?get_nested, ?Hlat. py_step.
    unfold address_formats, record, address_text.
    destruct (py_str repr (field d "addressStreet" (VStr ""))) as [a|];
      [|by eexists]. py_step.
    destruct (py_str repr (field d "addressCity" (VStr ""))) as [c|];
      [|by eexists]. py_step.
    destruct (py_str repr (field d "addressState" (VStr ""))) as [st|];
      [|by eexists]. py_step.
    destruct (py_str repr (field d "addressZipcode" (VStr ""))) as [z|];
      [|by eexists]. py_step.
    done. }
  destruct (negb _); [by rewrite Hbody|].
  destruct (_ && _); [by rewrite Hbody|].
  destruct Hbody as [e ->]. apply handle_reported.
Qed.

(** On anything else the [.get] of the [try] block raises, and so does
    the [.get] in the handler's message. *)
Lemma parse_property_nondict (v : value) :
  is_dict v = false → parse_property repr v = Raise AttributeError.
Proof. by destruct v. Qed.

Lemma record_keys d : dom (record repr d) = known_keys.
Proof. unfold record. by rewrite dom_list_to_map_L. Qed.

Lemma known_keys_size : size known_keys = 25%nat.
Proof. vm_compute. reflexivity. Qed.

Lemma parse_property_truthy prop_data r :
  parse_property repr prop_data = Ok r → r ≠ VNone → has_known_keys r.
Proof.
  intros Hp Hr. destruct (is_dict prop_data) eqn:Hd.
  - destruct prop_data as [| | | | | |d]; try done.
    rewrite parse_property_dict in Hp.
    destruct (negb _); [by injection Hp as <-|].
    destruct (_ && _); [|by apply reported_ok in Hp].
    injection Hp as <-. eexists. split; [done|apply record_keys].
  - by rewrite parse_property_nondict in Hp.
Qed.

Lemma parse_each_keys items : ∀ acc out,
  Forall has_known_keys acc →
  parse_each repr items acc = Ok out → Forall has_known_keys out.
Proof.
  induction items as [|item rest IH]; intros acc out Hacc Hrun;
    cbn [parse_each] in Hrun.
  - by injection Hrun as <-.
  - destruct (parse_property repr item) as [r|e] eqn:Hp; [|done].
    cbn [mbind result_bind] in Hrun.
    destruct (truthy r) eqn:Ht; [|by eapply IH].
    destruct (py_getitem r "address") as [address|]; [|done].
    cbn [mbind result_bind] in Hrun.
    destruct (py_str repr address) as [text|]; [|done].
    cbn [mbind result_bind] in Hrun.
    destruct (py_print text); [|done]. cbn [mbind result_bind] in Hrun.
    eapply IH; [|done]. apply Forall_app. split; [done|].
    apply Forall_singleton. eapply parse_property_truthy; [done|].
    by intros ->.
Qed.

(** C3 (amended). For every property dict with a truthy 'zpid' whose
    'hdpData' (and its 'homeInfo'), 'variableData' and 'latLong' entries
    are dicts where present, whose 'detailUrl' is a string when
    non-empty, and whose four address parts convert to text,
    [parse_property] returns a record whose address, city, state,
    zipcode, price, bedrooms, bathrooms, latitude and longitude fields
    are the input's addressStreet, addressCity, addressState,
    addressZipcode, price, beds, baths, latLong.latitude and
    latLong.longitude (a missing address part is the empty string, any
    other missing value [None]). *)
Theorem parse_property_fields (d : gmap string value) :
  truthy (field d "zpid" VNone) = true →
  well_shaped d = true →
  address_formats repr d = true →
  ∃ rec,
    parse_property repr (VDict d) = Ok (VDict rec) ∧
    rec !! "address" = Some (field d "addressStreet" (VStr "")) ∧
    rec !! "city" = Some (field d "addressCity" (VStr "")) ∧
    rec !! "state" = Some (field d "addressState" (VStr "")) ∧
    rec !! "zipcode" = Some (field d "addressZipcode" (VStr "")) ∧
    rec !! "price" = Some (field d "price" VNone) ∧
    rec !! "bedrooms" = Some (field d "beds" VNone) ∧
    rec !! "bathrooms" = Some (field d "baths" VNone) ∧
    rec !! "latitude" = Some (field (nested d "latLong") "latitude" VNone) ∧
    rec !! "longitude" = Some (field (nested d "latLong") "longitude" VNone).
Proof.
  intros Hz Hw Hf. exists (record repr d).
  rewrite parse_property_dict, Hz, Hw, Hf. repeat split; reflexivity.
Qed.

(** C4. Every record [parse_property] returns other than [None] is a
    dict whose key set is the fixed set of 25 known keys, whatever the
    input; hence so is every element of what [parse_all_properties]
    returns. *)
Theorem known_keys_invariant :
  size known_keys = 25%nat ∧
  (∀ prop_data r,
     parse_property repr prop_data = Ok r → r ≠ VNone → has_known_keys r) ∧
  (∀ json_data props,
     parse_all_properties repr json_data = Ok props →
     Forall has_known_keys props).
Proof.
  split; [apply known_keys_size|]. split; [apply parse_property_truthy|].
  intros json_data props. unfold parse_all_properties.
  destruct (negb (truthy json_data)); [by intros [= <-]|].
  destruct (extract_search_results json_data) as [sr|]; [|done]. cbn.
  destruct (negb (truthy sr)); [by intros [= <-]|].
  destruct (list_results_of sr) as [lr|]; [|done]. cbn.
  destruct (py_len lr); [|done]. cbn.
  destruct (py_iter lr) as [items|]; [|done]. cbn.
  by apply parse_each_keys.
Qed.

(** C9 (amended). For every dict input, whatever the types of its
    fields, whose zpid (or the word 'unknown' that stands in for a
    missing one) converts to text that can be printed, [parse_property]
    returns [None] or a dict and propagates no exception. *)
Theorem parse_property_total_on_dicts (d : gmap string value) :
  zpid_prints repr d = true →
  parse_property repr (VDict d) = Ok VNone ∨
  ∃ rec, parse_property repr (VDict d) = Ok (VDict rec).
Proof.
  intros Hprints%reported_prints. rewrite parse_property_dict.
  destruct (negb _); [by left|].
  destruct (_ && _); [right; by eexists|by left].
Qed.

(** A listing with a truthy zpid is dropped ([None]) exactly when one of
    the nested lookups fails or an address part does not convert to
    text, and the handler's message, which shows the zpid, can be
    printed; one with a missing or falsy zpid is always dropped. *)
Lemma parse_property_none_iff (d : gmap string value) :
  parse_property repr (VDict d) = Ok VNone ↔
  truthy (field d "zpid" VNone) = false ∨
  well_shaped d && address_formats repr d = false ∧
  zpid_prints repr d = true.
Proof.
  rewrite parse_property_dict.
  destruct (truthy (field d "zpid" VNone)); cbn [negb]; [|by split; auto].
  destruct (_ && _).
  - split; [done|]. by intros [|[]].
  - rewrite reported_prints. split; [by right|]. by intros [|[]].
Qed.

End Formatting.

Lemma parse_property_fields_witness :
  truthy (field listing "zpid" VNone) = true ∧
  well_shaped listing = true ∧
  address_formats repr_sample listing = true ∧
  ∃ rec,
    parse_property repr_sample (VDict listing) = Ok (VDict rec) ∧
    rec !! "address" = Some (field listing "addressStreet" (VStr "")) ∧
    rec !! "city" = Some (field listing "addressCity" (VStr "")) ∧
    rec !! "state" = Some (field listing "addressState" (VStr "")) ∧
    rec !! "zipcode" = Some (field listing "addressZipcode" (VStr "")) ∧
    rec !! "price" = Some (field listing "price" VNone) ∧
    rec !! "bedrooms" = Some (field listing "beds" VNone) ∧
    rec !! "bathrooms" = Some (field listing "baths" VNone) ∧
    rec !! "latitude" =
      Some (field (nested listing "latLong") "latitude" VNone) ∧
    rec !! "longitude" =
      Some (field (nested listing "latLong") "longitude" VNone).
Proof.
  split; [vm_compute; reflexivity|]. split; [vm_compute; reflexivity|].
  split; [vm_compute; reflexivity|].
  apply (parse_property_fields repr_sample listing); vm_compute; reflexivity.
Defined.

(** C3, as stated, fails on a listing with a truthy 'zpid' and
    [latLong: null]: no record is returned. *)
Lemma parse_property_drops_null_latlong :
  truthy (field listing_null_latlong "zpid" VNone) = true ∧
  parse_property repr_sample (VDict listing_null_latlong) = Ok VNone.
Proof. split; vm_compute; reflexivity. Qed.

Lemma known_keys_invariant_witness :
  has_known_keys (VDict (record repr_sample listing)).
Proof.
  apply (proj1 (proj2 (known_keys_invariant repr_sample)) (VDict listing));
    [vm_compute; reflexivity|discriminate].
Defined.

Lemma parse_property_total_on_dicts_witness :
  zpid_prints repr_sample listing_null_latlong = true ∧
  (parse_property repr_sample (VDict listing_null_latlong) = Ok VNone ∨
   ∃ rec,
     parse_property repr_sample (VDict listing_null_latlong)
       = Ok (VDict rec)).
Proof.
  split; [vm_compute; reflexivity|].
  apply (parse_property_total_on_dicts repr_sample listing_null_latlong).
  vm_compute. reflexivity.
Defined.

(** C9, as stated, fails on a value that is not a dict, here a string
    among the listings: the handler's own [prop_data.get] raises. It
    fails on a dict as well when the handler cannot form its message:
    with [latLong: null] and a zpid of 4301 digits, [str] raises
    [ValueError] in the handler. *)
Lemma parse_property_handler_raises :
  parse_property repr_sample (VStr "not a listing") = Raise AttributeError ∧
  parse_property repr_sample (VDict long_zpid) = Raise ValueError.
Proof. split; vm_compute; reflexivity. Qed.

Lemma parse_property_none_iff_witness :
  parse_property repr_sample (VDict long_address) = Ok VNone.
Proof.
  apply (parse_property_none_iff repr_sample long_address). right.
  split; vm_compute; reflexivity.
Defined.

(** *** The listing array *)

Lemma first_truthy_cons d key keys dflt :
  truthy dflt = false →
  first_truthy d (key :: keys) =
    if truthy (field d key dflt) then Some (field d key dflt)
    else first_truthy d keys.
Proof. intros Hd. unfold field. cbn. destruct (d !! key); cbn; by rewrite ?Hd. Qed.

(** The value bound to [list_results]: the first non-empty value under
    'listResults' and 'results', and else whatever 'mapResults' holds (the
    empty list when that key is absent). *)
Lemma list_results_of_dict (sr : gmap string value) :
  list_results_of (VDict sr) =
    Ok (match first_truthy sr ["listResults"; "results"] with
        | Some v => v
        | None => field sr "mapResults" (VList [])
        end).
Proof.
  unfold list_results_of. rewrite !py_get_dict. py_step.
  rewrite !(first_truthy_cons _ _ _ (VList [])) by done. unfold py_or.
  destruct (truthy (field sr "listResults" (VList []))); [done|]. py_step.
  by destruct (truthy (field sr "results" (VList []))).
Qed.

(** C6, at its failing input: with an empty 'listResults' and
    [mapResults: null] the loop starts from [None], not from the empty
    list, and [len(list_results)] raises. *)
Theorem parse_all_properties_null_map_results :
  (search_results ← extract_search_results null_map_results;
   list_results_of search_results) = Ok VNone ∧
  parse_all_properties repr_sample null_map_results = Raise TypeError.
Proof. split; vm_compute; reflexivity. Qed.

(** *** Pagination *)

Lemma total_results_chain sr :
  py_or (field sr "totalResultCount" VNone)
    (py_or (field sr "totalResults" VNone)
       (py_or (field sr "resultCount" VNone) (Ok (VInt 0))))
  = Ok (total_results_of sr).
Proof.
  unfold total_results_of.
  rewrite !(first_truthy_cons _ _ _ VNone) by done. unfold py_or.
  destruct (truthy (field sr "totalResultCount" VNone)); [done|].
  destruct (truthy (field sr "totalResults" VNone)); [done|].
  by destruct (truthy (field sr "resultCount" VNone)).
Qed.

Lemma pagination_chain sr :
  py_or (field (nested sr "searchList") "pagination" (VDict ∅))
    (py_or (field sr "pagination" (VDict ∅)) (Ok (VDict ∅)))
  = Ok (if truthy (field (nested sr "searchList") "pagination" (VDict ∅))
        then field (nested sr "searchList") "pagination" (VDict ∅)
        else if truthy (field sr "pagination" (VDict ∅))
        then field sr "pagination" (VDict ∅)
        else VDict ∅).
Proof. unfold py_or. by repeat destruct (truthy _). Qed.

Lemma ceil_bracket n : 20 * ((n + 19) / 20 - 1) < n ≤ 20 * ((n + 19) / 20).
Proof.
  pose proof (Z.div_mod (n + 19) 20).
  pose proof (Z.mod_pos_bound (n + 19) 20). lia.
Qed.

(** The float arithmetic on counts up to [checked_counts], by
    evaluation. *)
Lemma float_pages_agree_from_spec (k : nat) : ∀ p n,
  float_pages_agree_from p k = true →
  p ≤ n < p + Z.of_nat k → float_pages_agree n = true.
Proof.
  induction k as [|k IH]; intros p n Hall Hn; [lia|].
  cbn [float_pages_agree_from] in Hall.
  apply andb_true_iff in Hall as [Hp Hrest].
  destruct (decide (n = p)) as [->|]; [done|].
  apply (IH (p + 1)); [done|lia].
Qed.

Lemma float_pages_checked n :
  0 ≤ n ≤ checked_counts →
  float_pages (float_of_literal n) = float_of_literal ((n + 19) / 20).
Proof.
  intros Hn. apply FloatAxioms.Leibniz.eqb_spec.
  apply (float_pages_agree_from_spec (Z.to_nat (checked_counts + 1)) 0).
  - vm_compute. reflexivity.
  - unfold checked_counts in *. lia.
Qed.

(** C8. Whenever [get_pagination_info] returns a non-empty dict, its
    'total_results' is the first truthy value among totalResultCount,
    totalResults and resultCount of the search results (0 when there is
    none), and for a count [n] (an [int], or a [bool] read as 0 or 1) its
    'total_pages' is the ceiling of [n / 20], that is [(n + 19) // 20]:
    0 when [n = 0], and [20 * (total_pages - 1) < n <= 20 * total_pages].
    A count that came as a float holding the integer [n], up to
    [checked_counts], gives the same number of pages, as a float.
    'current_page' is 1 when no pagination dict is found. *)
Theorem get_pagination_info_pages (json_data : value)
    (info : gmap string value) :
  get_pagination_info json_data = Ok (VDict info) →
  info ≠ ∅ →
  ∃ sr,
    extract_search_results json_data = Ok (VDict sr) ∧
    info !! "total_results" = Some (total_results_of sr) ∧
    (∀ n, as_int (total_results_of sr) = Some n →
       ∃ p, info !! "total_pages" = Some (VInt p) ∧
            p = (n + 19) / 20 ∧
            (n = 0 → p = 0) ∧
            20 * (p - 1) < n ≤ 20 * p) ∧
    (∀ n, 0 ≤ n ≤ checked_counts →
       total_results_of sr = float_count n →
       info !! "total_pages" = Some (float_count ((n + 19) / 20))) ∧
    (pagination_found sr = false → info !! "current_page" = Some (VInt 1)).
Proof.
  intros Hget Hne. revert Hget. unfold get_pagination_info.
  assert (Hempty : ∀ P : Prop, Ok (VDict ∅) = Ok (VDict info) → P)
    by (intros P [= <-]; done).
  destruct (negb (truthy json_data)); [exact (Hempty _)|].
  rewrite extract_unblocked.
  set (v := if blocked _ _ then _ else _). clearbody v. py_step.
  destruct (negb (truthy v)); [exact (Hempty _)|].
  destruct v as [| | | | | |sr]; repeat progress py_step;
    try exact (Hempty _).
  rewrite total_results_chain. repeat progress py_step.
  intros Hget. exists sr. split; [done|].
  assert (Hpages : ∃ tp,
    (py_add_int (total_results_of sr) results_per_page
       ≫= λ s, py_sub_int s 1 ≫= λ s0, py_floordiv_int s0 results_per_page)
    = Ok tp ∧
    (∀ n, as_int (total_results_of sr) = Some n → tp = VInt ((n + 19) / 20)) ∧
    (∀ f, total_results_of sr = VFloat f → tp = VFloat (float_pages f))).
  { destruct (total_results_of sr) as [|b|n|f| | |];
      try (exfalso; exact (Hempty _ Hget)); cbn; eexists; (split; [done|]);
      (split; [|by intros ? [= <-]]);
      intros ? [= <-]; try done; unfold results_per_page; do 2 f_equal; lia. }
  destruct Hpages as (tp & Hsum & Htp & Hfp). rewrite Hsum in Hget.
  py_step in Hget. rewrite get_nested in Hget.
  destruct (dict_or_absent (sr !! "searchList")); py_step in Hget;
    [|exact (Hempty _ Hget)].
  rewrite pagination_chain in Hget. py_step in Hget.
  destruct (py_get _ "currentPage" (VInt 1)) as [cp|] eqn:Hcp;
    py_step in Hget; [|exact (Hempty _ Hget)].
  injection Hget as <-. split; [done|]. split; [|split].
  - intros n Hn. rewrite (Htp n Hn). eexists. split; [done|]. split; [done|].
    split; [by intros ->|apply ceil_bracket].
  - intros n Hn Hcount. rewrite (Hfp _ Hcount), float_pages_checked by done.
    done.
  - unfold pagination_found. intros [Ha Hb]%orb_false_elim.
    rewrite Ha, Hb in Hcp. by injection Hcp as <-.
Qed.

Lemma get_pagination_info_pages_witness :
  get_pagination_info count_41 = Ok (VDict count_41_info) ∧
  ∃ sr,
    extract_search_results count_41 = Ok (VDict sr) ∧
    count_41_info !! "total_results" = Some (total_results_of sr) ∧
    (∀ n, as_int (total_results_of sr) = Some n →
       ∃ p, count_41_info !! "total_pages" = Some (VInt p) ∧
            p = (n + 19) / 20 ∧
            (n = 0 → p = 0) ∧
            20 * (p - 1) < n ≤ 20 * p) ∧
    (∀ n, 0 ≤ n ≤ checked_counts →
       total_results_of sr = float_count n →
       count_41_info !! "total_pages" = Some (float_count ((n + 19) / 20))) ∧
    (pagination_found sr = false →
       count_41_info !! "current_page" = Some (VInt 1)).
Proof.
  split; [vm_compute; reflexivity|].
  apply (get_pagination_info_pages count_41 count_41_info);
    [vm_compute; reflexivity|].
  apply (bool_decide_unpack _). vm_compute. reflexivity.
Defined.

End ParserProofs.

(* ================================================================== *)
(** ** Facts about the scraper *)
(* ================================================================== *)

Module ScraperProofs.
Import Py Scraper ScraperSpec.

Lemma fetch_one_spec w b p acc log :
  fetch_one w b p acc log =
    match url_of_page w b p with
    | Raise e => (Raise e, log)
    | Ok u => (after_fetch w b p acc (post w log u true), log ++ [sent w log u])
    end.
Proof.
  assert (Hfetch :
    (if p =? 1 then fetch_page w b true else fetch_page_with_url_state w b p) log
    = match url_of_page w b p with
      | Raise e => (Raise e, log)
      | Ok u => (fetch_result w (post w log u true), log ++ [sent w log u])
      end).
  { unfold url_of_page, fetch_page_with_url_state, fetch_page, sent.
    destruct (p =? 1); [done|]. destruct (search_query_state w b); [|done].
    unfold mbind, M_bind, result_bind, lift.
    destruct (json_loads w s) as [st|]; [|done].
    by destruct (py_setitem st _ _). }
  change (fetch_one w b p acc log) with
    (M_bind _ _ (λ result0 : value,
        if negb (truthy result0) then mret (acc, false) else
        lift (html_of result0) ≫= λ html,
        if negb (truthy html)
        then mret (acc ++ [page_record p b result0], false)
        else lift (find_next_link w html) ≫= λ next_link,
          match next_link with
          | None => mret (acc ++ [page_record p b result0], false)
          | Some a =>
              if bool_decide (aria_disabled a = Some "true")
              then mret (acc ++ [page_record p b result0], false)
              else mret (acc ++ [page_record p b result0], true)
          end)
       (if p =? 1 then fetch_page w b true else fetch_page_with_url_state w b p)
       log).
  unfold M_bind at 1. rewrite Hfetch.
  destruct (url_of_page w b p) as [u|]; [|done].
  unfold after_fetch, next_page_available.
  unfold mbind, M_bind, result_bind, lift, mret, M_ret.
  destruct (fetch_result _ _) as [r|]; [|done].
  destruct (truthy r); [|done]. cbn [negb].
  destruct (html_of r) as [html|]; [|done].
  destruct (truthy html); [|done]. cbn [negb].
  destruct (find_next_link w html) as [[a|]|]; try done. cbn.
  unfold enabled. by destruct (bool_decide _).
Qed.

Lemma after_fetch_inv w b p acc o acc1 go :
  after_fetch w b p acc o = Ok (acc1, go) →
  ∃ data, fetch_result w o = Ok data ∧
    if truthy data
    then acc1 = acc ++ [page_record p b data] ∧ next_page_available w data = Ok go
    else acc1 = acc ∧ go = false.
Proof.
  unfold after_fetch. destruct (fetch_result w o) as [data|]; [|done]. cbn.
  intros H. exists data. split; [done|].
  destruct (truthy data); [|by injection H as <- <-].
  destruct (next_page_available w data); [|done]. by injection H as <- <-.
Qed.

Lemma seqZ_S p (n : nat) :
  seqZ p (Z.of_nat (S n)) = p :: seqZ (p + 1) (Z.of_nat n).
Proof.
  rewrite seqZ_cons by lia. f_equal. f_equal; lia.
Qed.

Lemma fetch_loop_inv w b (n : nat) : ∀ p acc log out log',
  fetch_loop w b (seqZ p (Z.of_nat n)) acc log = (out, log') →
  ∃ new,
    log' = log ++ new ∧ (length new ≤ n)%nat ∧
    (∀ (i : nat) rq, new !! i = Some rq →
       ∃ u, url_of_page w b (p + Z.of_nat i) = Ok u ∧ rq = sent w (log ++ take i new) u) ∧
    (∀ (i : nat) rq, new !! i = Some rq → (S i < length new)%nat →
       continues w rq) ∧
    (∀ pages, out = Ok pages →
       ∃ recs, pages = acc ++ recs ∧ (length recs ≤ length new)%nat ∧
         ∀ (i : nat) rec, recs !! i = Some rec →
           ∃ rq data, new !! i = Some rq ∧
             fetch_result w (req_outcome rq) = Ok data ∧
             truthy data = true ∧
             rec = page_record (p + Z.of_nat i) b data) ∧
    (∀ e, out = Raise e →
       ∃ (j : nat) acc0, (j < n)%nat ∧
         (fetch_one w b (p + Z.of_nat j) acc0 (log ++ take j new)).1 = Raise e).
Proof.
  induction n as [|n IH]; intros p acc log out log' Hrun.
  - injection Hrun as <- <-. exists []. rewrite app_nil_r.
    repeat split; try done.
    intros pages [= <-]. exists []. by rewrite app_nil_r.
  - rewrite seqZ_S in Hrun. cbn [fetch_loop] in Hrun.
    unfold mbind, M_bind in Hrun.
    destruct (fetch_one w b p acc log) as [[[acc1 go]|e] log1] eqn:Hone.
    + (* the page was handled *)
      rewrite fetch_one_spec in Hone.
      destruct (url_of_page w b p) as [u|] eqn:Hu; [|done].
      injection Hone as Hafter <-.
      apply after_fetch_inv in Hafter as (data & Hdata & Hcase).
      destruct go.
      * (* next page *)
        destruct (truthy data) eqn:Ht; [|by destruct Hcase].
        destruct Hcase as [-> Hnext].
        apply IH in Hrun as (new & -> & Hlen & Hurl & Hcont & Hpages & Hraise).
        exists (sent w log u :: new). split; [by rewrite <- app_assoc|].
        split; [cbn; lia|]. repeat split.
        -- intros [|i] rq Hi; cbn in Hi.
           ++ injection Hi as <-. exists u. cbn [Z.of_nat]. rewrite Z.add_0_r, take_0, app_nil_r. done.
           ++ apply Hurl in Hi as (u' & Hu' & ->). exists u'.
              replace (p + Z.of_nat (S i)) with (p + 1 + Z.of_nat i) by lia. split; [done|].
              cbn [take]. by rewrite <- app_assoc.
        -- intros [|i] rq Hi Hlt; cbn in Hi, Hlt.
           ++ injection Hi as <-. by exists data.
           ++ apply (Hcont i); [done|lia].
        -- intros pages Hp. apply Hpages in Hp as (recs & -> & Hl & Hrecs).
           exists (page_record p b data :: recs). split; [by rewrite <- app_assoc|].
           split; [cbn; lia|]. intros [|i] rec Hi; cbn in Hi.
           ++ injection Hi as <-. exists (sent w log u), data.
              cbn [Z.of_nat]. rewrite Z.add_0_r. repeat split; try done; exact Hdata.
           ++ apply Hrecs in Hi as (rq & data' & ? & ? & ? & ->).
              exists rq, data'. replace (p + Z.of_nat (S i)) with (p + 1 + Z.of_nat i) by lia. done.
        -- intros e He. apply Hraise in He as (j & acc0 & Hj & Hr).
           exists (S j), acc0. split; [lia|].
           replace (p + Z.of_nat (S j)) with (p + 1 + Z.of_nat j) by lia.
           cbn [take]. by rewrite <- app_assoc in Hr.
      * (* break *)
        injection Hrun as <- <-. exists [sent w log u].
        split; [done|]. split; [cbn; lia|]. repeat split.
        -- intros [|i] rq Hi; [|done]. injection Hi as <-. exists u.
           cbn [Z.of_nat]. rewrite Z.add_0_r, take_0, app_nil_r. done.
        -- intros [|i] rq Hi Hlt; cbn in Hlt; lia.
        -- intros pages [= <-]. destruct (truthy data) eqn:Ht.
           ++ destruct Hcase as [-> _]. exists [page_record p b data].
              split; [done|]. split; [done|].
              intros [|i] rec Hi; [|done]. injection Hi as <-.
              exists (sent w log u), data. cbn [Z.of_nat]. rewrite Z.add_0_r. repeat split; try done; exact Hdata.
           ++ destruct Hcase as [-> _]. exists []. rewrite app_nil_r.
              split; [done|]. split; [cbn; lia|]. intros i rec Hi.
              by rewrite lookup_nil in Hi.
        -- done.
    + (* the page raised *)
      injection Hrun as <- <-.
      assert (Hfst : (fetch_one w b (p + Z.of_nat 0) acc (log ++ take 0 [])).1 = Raise e).
      { cbn [Z.of_nat take]. by rewrite Z.add_0_r, app_nil_r, Hone. }
      rewrite fetch_one_spec in Hone.
      destruct (url_of_page w b p) as [u|] eqn:Hu.
      * injection Hone as Hafter <-. exists [sent w log u].
        split; [done|]. split; [cbn; lia|]. repeat split.
        -- intros [|i] rq Hi; [|done]. injection Hi as <-. exists u.
           cbn [Z.of_nat]. rewrite Z.add_0_r, take_0, app_nil_r. done.
        -- intros [|i] rq Hi Hlt; cbn in Hlt; lia.
        -- done.
        -- intros e' [= <-]. exists 0%nat, acc. split; [lia|]. exact Hfst.
      * injection Hone as <- <-. exists []. rewrite app_nil_r.
        split; [done|]. split; [cbn; lia|].
        split; [intros i rq Hi; by rewrite lookup_nil in Hi|].
        split; [intros i rq Hi; by rewrite lookup_nil in Hi|].
        split; [done|].
        intros e' [= <-]. exists 0%nat, acc. split; [lia|]. exact Hfst.
Qed.

Lemma range_as_nat p n : seqZ p n = seqZ p (Z.of_nat (Z.to_nat n)).
Proof. unfold seqZ. by rewrite Nat2Z.id. Qed.

(** The run of [fetch_all_pages] from an empty log, on the loop
    invariant. *)
Lemma fetch_all_pages_inv w b max_pages :
  ∃ out log,
    fetch_all_pages w b max_pages [] = (out, log) ∧
    (length log ≤ Z.to_nat max_pages)%nat ∧
    (∀ (i : nat) rq, log !! i = Some rq →
       ∃ u, url_of_page w b (1 + Z.of_nat i) = Ok u ∧
            rq = sent w (take i log) u) ∧
    (∀ (i : nat) rq, log !! i = Some rq → (S i < length log)%nat →
       continues w rq) ∧
    (∀ pages, out = Ok pages →
       (length pages ≤ length log)%nat ∧
       ∀ (i : nat) rec, pages !! i = Some rec →
         ∃ rq data, log !! i = Some rq ∧
           fetch_result w (req_outcome rq) = Ok data ∧
           truthy data = true ∧
           rec = page_record (1 + Z.of_nat i) b data) ∧
    (∀ e, out = Raise e →
       ∃ (j : nat) acc0, (j < Z.to_nat max_pages)%nat ∧
         (fetch_one w b (1 + Z.of_nat j) acc0 (take j log)).1 = Raise e).
Proof.
  unfold fetch_all_pages. rewrite range_as_nat.
  destruct (fetch_loop w b (seqZ 1 (Z.of_nat (Z.to_nat max_pages))) [] [])
    as [out log] eqn:Hrun.
  apply fetch_loop_inv in Hrun
    as (new & -> & Hlen & Hurl & Hcont & Hpages & Hraise).
  exists out, new. cbn [app] in *.
  split; [done|]. split; [done|]. split; [done|]. split; [done|].
  split; [|done].
  - intros pages Hp. split.
    + by apply Hpages in Hp as (recs & -> & ? & ?).
    + intros i rec Hi. apply Hpages in Hp as (recs & -> & ? & Hrecs).
      by apply Hrecs.
Qed.

Lemma html_of_key data html :
  html_of data = Ok html → truthy html = true →
  ∃ key, key ∈ html_keys ∧ py_get data key VNone = Ok html.
Proof.
  unfold html_of, html_keys, py_or. destruct data as [| | | | | |d]; try done.
  cbn [py_get mbind result_bind]. intros Hh Ht.
  repeat
    match type of Hh with
    | (if truthy ?v then _ else _) = _ =>
        destruct (truthy v) eqn:?; [injection Hh as <-|]
    end;
    eexists; (split; [|done || exact Hh]); set_solver.
Qed.

Lemma next_page_available_true w data :
  next_page_available w data = Ok true →
  ∃ key html a,
    key ∈ html_keys ∧ py_get data key VNone = Ok html ∧
    truthy html = true ∧
    find_next_link w html = Ok (Some a) ∧
    aria_disabled a ≠ Some "true".
Proof.
  unfold next_page_available.
  destruct (html_of data) as [html|] eqn:Hh; [|done]. cbn.
  destruct (truthy html) eqn:Ht; [|done].
  destruct (find_next_link w html) as [[a|]|] eqn:Hf; try done. cbn.
  unfold enabled. intros [= Ha%negb_true_iff%bool_decide_eq_false].
  destruct (html_of_key _ _ Hh Ht) as (key & ? & ?).
  by exists key, html, a.
Qed.

(** C1 (amended). For every base_url and every max_pages >= 0,
    [fetch_all_pages] terminates. The POSTs it makes are, in order, one
    for page 1, one for page 2, ..., one for page k, with k <= max_pages:
    the request at position i is the single request for page i + 1, made
    for the URL built for that page after exactly the i earlier requests.
    A request is followed by another only when its fetch returned a
    truthy result, so a failed page is the last one and is not retried.
    Either the function returns a list of at most k (hence at most
    max_pages) page records, or an exception raised while one of the
    pages 1..max_pages was handled propagates. *)
Theorem fetch_all_pages_bounded w base_url max_pages :
  0 ≤ max_pages →
  ∃ out log,
    fetch_all_pages w base_url max_pages [] = (out, log) ∧
    Z.of_nat (length log) ≤ max_pages ∧
    (∀ (i : nat) rq, log !! i = Some rq →
       ∃ u, url_of_page w base_url (1 + Z.of_nat i) = Ok u ∧
            rq = sent w (take i log) u) ∧
    (∀ (i : nat) rq, log !! i = Some rq → (S i < length log)%nat →
       ∃ data, fetch_result w (req_outcome rq) = Ok data ∧
               truthy data = true) ∧
    match out with
    | Ok pages => (length pages ≤ length log)%nat
    | Raise e =>
        ∃ page_num all_pages log0,
          1 ≤ page_num ≤ max_pages ∧
          (fetch_one w base_url page_num all_pages log0).1 = Raise e
    end.
Proof.
  intros Hmax.
  destruct (fetch_all_pages_inv w base_url max_pages)
    as (out & log & Hrun & Hlen & Hurl & Hcont & Hpages & Hraise).
  exists out, log. split; [done|]. split; [lia|]. split; [done|]. split.
  { intros i rq Hi Hlt. destruct (Hcont i rq Hi Hlt) as (data & ? & ? & _).
    by exists data. }
  destruct out as [pages|e].
  - by apply Hpages.
  - destruct (Hraise e eq_refl) as (j & acc0 & Hj & Hone).
    exists (1 + Z.of_nat j), acc0, (take j log). split; [lia|done].
Qed.

Lemma fetch_all_pages_bounded_witness :
  0 ≤ 3 ∧
  ∃ out log,
    fetch_all_pages two_pages zillow_url 3 [] = (out, log) ∧
    Z.of_nat (length log) ≤ 3 ∧
    (∀ (i : nat) rq, log !! i = Some rq →
       ∃ u, url_of_page two_pages zillow_url (1 + Z.of_nat i) = Ok u ∧
            rq = sent two_pages (take i log) u) ∧
    (∀ (i : nat) rq, log !! i = Some rq → (S i < length log)%nat →
       ∃ data, fetch_result two_pages (req_outcome rq) = Ok data ∧
               truthy data = true) ∧
    match out with
    | Ok pages => (length pages ≤ length log)%nat
    | Raise e =>
        ∃ page_num all_pages log0,
          1 ≤ page_num ≤ 3 ∧
          (fetch_one two_pages zillow_url page_num all_pages log0).1 = Raise e
    end.
Proof.
  split; [lia|].
  apply (fetch_all_pages_bounded two_pages zillow_url 3). lia.
Defined.

(** C1, as stated, fails for a base_url whose searchQueryState is not
    JSON: page 1 is fetched and announces a next page, decoding the state
    for page 2 raises, and [fetch_all_pages] returns no list. *)
Lemma fetch_all_pages_raises_on_bad_state :
  fetch_all_pages bad_state bad_state_url 2 [] =
    (Raise ValueError, [sent bad_state [] bad_state_url]).
Proof. vm_compute. reflexivity. Qed.

(** C5, at its failing input: the POST succeeds with status 200 and the
    JSON dict [{"status": "success", "render_flow": null}]; the status
    message reads [data['render_flow'].get('success')], the
    [AttributeError] is neither an [HTTPError] nor a [RequestException],
    and it leaves [fetch_page] and [fetch_all_pages]. *)
Theorem fetch_page_raises_on_null_render_flow :
  (fetch_page render_flow_null zillow_url true []).1 = Raise AttributeError ∧
  (fetch_all_pages render_flow_null zillow_url 5 []).1 = Raise AttributeError.
Proof. split; vm_compute; reflexivity. Qed.

(** C7. A POST for page n + 1 (the request at position n of the log) is
    made only if n + 1 <= max_pages and the request before it is the one
    for page n, its fetch returned a result other than [None] (a truthy
    one), that result holds a non-empty HTML value under one of the keys
    html_content, rendered_html, browser_html, html, and the HTML has an
    anchor with rel='next' whose aria-disabled attribute is not 'true'. *)
Theorem next_page_needs_next_link w base_url max_pages (n : nat) rq' :
  (1 ≤ n)%nat →
  (fetch_all_pages w base_url max_pages []).2 !! n = Some rq' →
  Z.of_nat n + 1 ≤ max_pages ∧
  url_of_page w base_url (Z.of_nat n + 1) = Ok (req_url rq') ∧
  ∃ rq data key html a,
    (fetch_all_pages w base_url max_pages []).2 !! (n - 1)%nat = Some rq ∧
    url_of_page w base_url (Z.of_nat n) = Ok (req_url rq) ∧
    fetch_result w (req_outcome rq) = Ok data ∧
    data ≠ VNone ∧ truthy data = true ∧
    key ∈ html_keys ∧ py_get data key VNone = Ok html ∧
    truthy html = true ∧
    find_next_link w html = Ok (Some a) ∧
    aria_disabled a ≠ Some "true".
Proof.
  intros Hn Hrq'.
  destruct (fetch_all_pages_inv w base_url max_pages)
    as (out & log & Hrun & Hlen & Hurl & Hcont & _).
  rewrite Hrun in *. cbn [snd] in *.
  pose proof (lookup_lt_Some _ _ _ Hrq') as Hlt.
  split; [lia|]. split.
  { apply Hurl in Hrq' as (u & Hu & ->).
    by replace (Z.of_nat n + 1) with (1 + Z.of_nat n) by lia. }
  destruct (lookup_lt_is_Some_2 log (n - 1)%nat) as [rq Hrq]; [lia|].
  destruct (Hcont _ _ Hrq) as (data & Hdata & Ht & Hnext); [lia|].
  apply next_page_available_true in Hnext as (key & html & a & ? & ? & ? & ? & ?).
  exists rq, data, key, html, a. split; [done|]. split.
  { apply Hurl in Hrq as (u & Hu & ->).
    by replace (Z.of_nat n) with (1 + Z.of_nat (n - 1)) by lia. }
  repeat split; try done. by intros ->.
Qed.

Lemma next_page_needs_next_link_witness :
  (1 ≤ 1)%nat ∧
  (fetch_all_pages two_pages zillow_url 3 []).2 !! 1%nat =
    Some (sent two_pages [sent two_pages [] zillow_url] zillow_url) ∧
  Z.of_nat 1 + 1 ≤ 3 ∧
  url_of_page two_pages zillow_url (Z.of_nat 1 + 1) =
    Ok (req_url (sent two_pages [sent two_pages [] zillow_url] zillow_url)) ∧
  ∃ rq data key html a,
    (fetch_all_pages two_pages zillow_url 3 []).2 !! (1 - 1)%nat = Some rq ∧
    url_of_page two_pages zillow_url (Z.of_nat 1) = Ok (req_url rq) ∧
    fetch_result two_pages (req_outcome rq) = Ok data ∧
    data ≠ VNone ∧ truthy data = true ∧
    key ∈ html_keys ∧ py_get data key VNone = Ok html ∧
    truthy html = true ∧
    find_next_link two_pages html = Ok (Some a) ∧
    aria_disabled a ≠ Some "true".
Proof.
  split; [lia|]. split; [vm_compute; reflexivity|].
  apply (next_page_needs_next_link two_pages zillow_url 3 1);
    [lia|vm_compute; reflexivity].
Defined.

(** C10. The list [fetch_all_pages] returns carries the page numbers
    1, 2, ..., len(result) in order (the element at position i has
    'page_number' i + 1), and every element's 'url' is base_url. *)
Theorem page_numbers_consecutive w base_url max_pages pages :
  (fetch_all_pages w base_url max_pages []).1 = Ok pages →
  ∀ (i : nat) rec, pages !! i = Some rec →
    ∃ d, rec = VDict d ∧
      d !! "page_number" = Some (VInt (Z.of_nat i + 1)) ∧
      d !! "url" = Some (VStr base_url).
Proof.
  intros Hrun i rec Hi.
  destruct (fetch_all_pages_inv w base_url max_pages)
    as (out & log & Hrun' & _ & _ & _ & Hpages & _).
  rewrite Hrun' in Hrun. cbn [fst] in Hrun.
  destruct (Hpages _ Hrun) as [_ Hrecs].
  destruct (Hrecs _ _ Hi) as (rq & data & _ & _ & _ & ->).
  eexists. split; [done|].
  replace (1 + Z.of_nat i) with (Z.of_nat i + 1) by lia. done.
Qed.

Lemma page_numbers_consecutive_witness :
  (fetch_all_pages two_pages zillow_url 3 []).1 =
    Ok [ page_record 1 zillow_url (page_body first_html);
         page_record 2 zillow_url (page_body last_html) ] ∧
  ∀ (i : nat) rec,
    [ page_record 1 zillow_url (page_body first_html);
      page_record 2 zillow_url (page_body last_html) ] !! i = Some rec →
    ∃ d, rec = VDict d ∧
      d !! "page_number" = Some (VInt (Z.of_nat i + 1)) ∧
      d !! "url" = Some (VStr zillow_url).
Proof.
  split; [vm_compute; reflexivity|].
  apply (page_numbers_consecutive two_pages zillow_url 3).
  vm_compute. reflexivity.
Defined.

(** *** What holds of [fetch_page] and of the loop's stop on a failed
    fetch *)



(** What the two [except] clauses of [fetch_page] let through: a result
    is [None] or the result of the [try] block, and an exception is one
    the block raised that is no [RequestException]. *)
Lemma fetch_handlers_ok (body : result value) v :
  try_except body
    [ (is_HTTPError, λ _, Ok VNone); (is_RequestException, λ _, Ok VNone) ]
    = Ok v →
  v = VNone ∨ body = Ok v.
Proof.
  destruct body as [a|e]; cbn [try_except handle]; [by right|].
  destruct (is_HTTPError e); [by intros [= <-]; left|].
  destruct (is_RequestException e); [by intros [= <-]; left|done].
Qed.


(** The [try] block of [fetch_page] on a response without an error
    status that decodes to a dict. *)
Lemma fetch_block_dict w (d : gmap string value) (dump : string) :
  json_dumps w (VDict d) = Ok dump →
  (_ ← json_dumps w (VDict d);
   status ← py_get (VDict d) "status" VNone;
   _ ← print_value w status;
   _ ← (if dict_has (VDict d) "render_flow"
        then render_flow ← py_getitem (VDict d) "render_flow";
             success ← py_get render_flow "success" VNone;
             print_value w success
        else Ok tt);
   Ok (VDict d)) = Ok (VDict d) ↔
  print_value w (default VNone (d !! "status")) = Ok tt ∧
  match d !! "render_flow" with
  | None => True
  | Some (VDict flow) =>
      print_value w (default VNone (flow !! "success")) = Ok tt
  | Some _ => False
  end.
Proof.
  intros ->. cbn [mbind result_bind py_get dict_has py_getitem].
  destruct (print_value w (default VNone (d !! "status"))) as [[]|];
    cbn [mbind result_bind]; [|by split; [|intros []]].
  destruct (d !! "render_flow") as [flow|] eqn:Hflow.
  - rewrite bool_decide_eq_true_2 by done. cbn [mbind result_bind].
    destruct flow as [| | | | | |flow]; cbn [py_get mbind result_bind];
      try by split; [|intros []].
    destruct (print_value w (default VNone (flow !! "success"))) as [[]|];
      cbn [mbind result_bind]; [done|by split; [|intros []]].
  - rewrite bool_decide_eq_false_2 by (by intros []). done.
Qed.

(** [fetch_page] returns the decoded JSON dict exactly when the POST is
    answered without an HTTP error status and the messages about the
    dict can be formed and printed (the dump, the status, and the
    'success' entry of 'render_flow', a dict, when there is one). *)
Lemma fetch_page_returns_json w url render log r (d : gmap string value) :
  post w log url render = Responded r →
  ¬ (400 ≤ status_code r < 600) →
  json r = Ok (VDict d) →
  (fetch_page w url render log).1 = Ok (VDict d) ↔ reports w d.
Proof.
  unfold fetch_page, fetch_result, raise_for_status, response_json, reports.
  cbn [fst]. intros -> Hs Hjson. cbn [mbind result_bind].
  replace ((400 <=? status_code r) && (status_code r <? 600)) with false.
  2:{ symmetry. apply andb_false_iff.
      destruct (Z.leb_spec 400 (status_code r)); [|by left].
      right. apply Z.ltb_ge. lia. }
  rewrite Hjson. cbn [mbind result_bind].
  destruct (json_dumps w (VDict d)) as [dump|e] eqn:Hdump.
  - rewrite <- (fetch_block_dict w d dump Hdump), Hdump. split.
    + intros [[=]|Hblock]%fetch_handlers_ok. split; [by eexists|done].
    + intros [_ ->]. done.
  - cbn [mbind result_bind]. split.
    + by intros [[=]|[=]]%fetch_handlers_ok.
    + by intros [[dump [=]] _].
Qed.

Lemma fetch_page_returns_json_witness :
  (fetch_page two_pages zillow_url true []).1 = Ok (page_body first_html).
Proof.
  unfold page_body.
  eapply (fetch_page_returns_json two_pages zillow_url true []);
    [reflexivity|cbn; lia|reflexivity|].
  split; [by eexists|]. split; vm_compute; [reflexivity|exact I].
Defined.

(** [fetch_all_pages] stops at the first page whose fetch returns [None]
    (or anything falsy): that page's request is the last one made, so the
    page is not retried and no later page is fetched. *)
Lemma fetch_all_pages_stops_on_failed_fetch w base_url max_pages
    (i : nat) rq v :
  (fetch_all_pages w base_url max_pages []).2 !! i = Some rq →
  fetch_result w (req_outcome rq) = Ok v →
  truthy v = false →
  length (fetch_all_pages w base_url max_pages []).2 = S i.
Proof.
  intros Hrq Hv Ht.
  destruct (fetch_all_pages_inv w base_url max_pages)
    as (out & log & Hrun & _ & _ & Hcont & _).
  rewrite Hrun in *. cbn [snd] in *.
  pose proof (lookup_lt_Some _ _ _ Hrq) as Hlt.
  destruct (decide (S i < length log)%nat) as [Hmore|]; [|lia].
  destruct (Hcont _ _ Hrq Hmore) as (data & Hdata & Hdt & _).
  rewrite Hv in Hdata. injection Hdata as ->. congruence.
Qed.

Lemma fetch_all_pages_stops_on_failed_fetch_witness :
  length (fetch_all_pages unavailable zillow_url 4 []).2 = 1%nat.
Proof.
  apply (fetch_all_pages_stops_on_failed_fetch unavailable zillow_url 4 0
           (sent unavailable [] zillow_url) VNone);
    vm_compute; reflexivity.
Defined.

End ScraperProofs.

(* ================================================================== *)
(** ** More facts about the parser *)
(* ================================================================== *)

Module ParserShapeProofs.
Import Py Parser ParserSpec ParserProofs ParserShapes.

Section Formatting.
Variable repr : value → result string.

Lemma record_truthy d : truthy (VDict (record repr d)) = true.
Proof.
  cbn [truthy]. rewrite bool_decide_eq_false_2; [done|].
  unfold record. apply insert_non_empty.
Qed.

Lemma record_address d :
  py_getitem (VDict (record repr d)) "address" =
    Ok (field d "addressStreet" (VStr "")).
Proof. done. Qed.

Lemma address_formats_street d :
  address_formats repr d = true →
  ∃ text, py_str repr (field d "addressStreet" (VStr "")) = Ok text.
Proof.
  unfold address_formats, address_text.
  destruct (py_str repr (field d "addressStreet" (VStr ""))); [|done].
  by eexists.
Qed.

(** The loop on a listing it gets past. *)
Lemma parse_each_quiet item rest acc :
  quiet repr item = true →
  parse_each repr (item :: rest) acc =
    parse_each repr rest (acc ++ option_list (kept_record repr item)).
Proof.
  destruct item as [| | | | | |d]; try done.
  unfold quiet, kept_record. cbn [parse_each].
  rewrite parse_property_dict.
  destruct (truthy (field d "zpid" VNone)); cbn [negb andb].
  - destruct (well_shaped d && address_formats repr d) eqn:Hshape.
    + intros Hprints. cbn [mbind result_bind]. rewrite record_truthy.
      rewrite record_address.
      apply andb_true_iff in Hshape as [_ [text Htext]%address_formats_street].
      unfold prints in Hprints. rewrite Htext in Hprints.
      cbn [mbind result_bind]. rewrite Htext. cbn [mbind result_bind].
      unfold py_print. by destruct (has_surrogate text).
    + intros ->%reported_prints. cbn [mbind result_bind truthy option_list].
      by rewrite app_nil_r.
  - intros _. cbn [mbind result_bind truthy option_list].
    by rewrite app_nil_r.
Qed.

Lemma omap_cons_kept item rest :
  omap (kept_record repr) (item :: rest) =
    option_list (kept_record repr item) ++ omap (kept_record repr) rest.
Proof. cbn [omap list_omap]. by destruct (kept_record repr item). Qed.

Lemma parse_each_quiet_prefix pre : ∀ rest acc,
  Forall (λ item, quiet repr item = true) pre →
  parse_each repr (pre ++ rest) acc =
    parse_each repr rest (acc ++ omap (kept_record repr) pre).
Proof.
  induction pre as [|item pre IH]; intros rest acc Hquiet.
  - cbn [app omap list_omap]. by rewrite app_nil_r.
  - inversion Hquiet as [|? ? Hitem Hpre]; subst.
    rewrite <- app_comm_cons, parse_each_quiet by done.
    rewrite IH by done. by rewrite omap_cons_kept, app_assoc.
Qed.

(** Where the page state holds search results with a list of listings:
    when the loop gets past every listing, [parse_all_properties] returns
    the records of the listings [parse_property] keeps, in the listings'
    order, and nothing else; and it raises [AttributeError] at the first
    value that is no dict, when it gets that far. *)
Theorem parse_all_properties_records json_data sr items :
  truthy json_data = true →
  extract_search_results json_data = Ok sr →
  truthy sr = true →
  list_results_of sr = Ok (VList items) →
  (Forall (λ item, quiet repr item = true) items →
   parse_all_properties repr json_data =
     Ok (omap (kept_record repr) items)) ∧
  (∀ pre item post,
     items = pre ++ item :: post →
     Forall (λ item, quiet repr item = true) pre →
     is_dict item = false →
     parse_all_properties repr json_data = Raise AttributeError).
Proof.
  intros Hj Hsr Ht Hl. unfold parse_all_properties.
  rewrite Hj, Hsr. cbn [negb mbind result_bind]. rewrite Ht, Hl.
  cbn [negb mbind result_bind py_len py_iter]. split.
  - intros Hquiet.
    rewrite <- (app_nil_r items), parse_each_quiet_prefix by done.
    by rewrite app_nil_r.
  - intros pre item post -> Hquiet Hitem.
    rewrite parse_each_quiet_prefix by done. cbn [parse_each].
    by rewrite parse_property_nondict.
Qed.

End Formatting.

Lemma parse_all_properties_records_witness :
  Forall (λ item, quiet repr_sample item = true)
    [VDict listing; VDict listing_null_latlong] ∧
  parse_all_properties repr_sample (page_state two_listings) =
    Ok (omap (kept_record repr_sample)
          [VDict listing; VDict listing_null_latlong]).
Proof.
  split; [by repeat constructor|].
  refine (proj1 (parse_all_properties_records repr_sample
                   (page_state two_listings) two_listings
                   [VDict listing; VDict listing_null_latlong] _ _ _ _) _);
    [vm_compute; reflexivity..|by repeat constructor].
Defined.

Lemma try_except_all {A} (body : result A) (c : A) (v : A) :
  try_except body [ (is_Exception, λ _, Ok c) ] = Ok v →
  body = Ok v ∨ v = c.
Proof. destruct body; cbn; intros [= <-]; auto. Qed.

(** [extract_search_results] never raises, and what it returns is
    [None] or truthy: the value on the main path, or a dict with a
    'listResults' or 'mapResults' key found on an alternative path. *)
Theorem extract_search_results_none_or_truthy json_data :
  ∃ v, extract_search_results json_data = Ok v ∧
       (v = VNone ∨ truthy v = true ∧
          (v = default (VDict ∅) (value_at json_data main_path) ∨
           is_listing v = true)).
Proof.
  rewrite extract_unblocked. eexists. split; [done|].
  destruct (blocked json_data main_path); [by left|]. cbn zeta.
  destruct (truthy (default _ _)) eqn:Ht; cbn [negb]; [right; auto|].
  unfold first_alternative.
  destruct (head _) as [v|] eqn:Hh; [|by left]. right. cbn.
  apply head_Some_elem_of, list_elem_of_omap in Hh as (path & _ & Hhit).
  unfold hit in Hhit. destruct (value_at json_data path) as [v'|]; [|done].
  cbn in Hhit. destruct (is_listing v') eqn:Hl; [|done]. injection Hhit as <-.
  split; [|by right]. unfold is_listing in Hl. by destruct (truthy v').
Qed.

(** [get_pagination_info] never raises, and returns the empty dict or a
    dict of exactly the keys 'current_page', 'total_pages' and
    'total_results'. *)
Theorem get_pagination_info_shape json_data :
  ∃ info, get_pagination_info json_data = Ok (VDict info) ∧
          (info = ∅ ∨ dom info = pagination_keys).
Proof.
  unfold get_pagination_info.
  match goal with |- context [try_except ?b _] => destruct b as [v|e] eqn:Hb end.
  2:{ exists ∅. by split; [|left]. }
  cbn [try_except].
  destruct (negb (truthy json_data)); [injection Hb as <-; exists ∅; auto|].
  destruct (extract_search_results json_data) as [sr|]; [|done].
  cbn [mbind result_bind] in Hb.
  destruct (negb (truthy sr)); [injection Hb as <-; exists ∅; auto|].
  repeat
    match type of Hb with
    | (?m ≫= _) = _ => destruct m; [|done]; cbn [mbind result_bind] in Hb
    end.
  injection Hb as <-. eexists. split; [done|]. right.
  rewrite !dom_insert_L, dom_empty_L. unfold pagination_keys. set_solver.
Qed.

End ParserShapeProofs.

(* ================================================================== *)
(** ** More facts about the scraper *)
(* ================================================================== *)

Module ScraperRunProofs.
Import Py Scraper ScraperSpec ScraperProofs ScraperSites.

(** What a fetch returns: [None], or the dict the response decoded
    to. *)
Lemma fetch_result_ok w o v :
  fetch_result w o = Ok v →
  v = VNone ∨
  ∃ r d, o = Responded r ∧ json r = Ok (VDict d) ∧ v = VDict d.
Proof.
  unfold fetch_result. intros [->|Hbody]%fetch_handlers_ok; [by left|].
  right. destruct o as [t|r]; [done|]. cbn [mbind result_bind] in Hbody.
  destruct (raise_for_status r); [|done]. cbn [mbind result_bind] in Hbody.
  unfold response_json in Hbody.
  destruct (json r) as [data|] eqn:Hj; [|done].
  cbn [mbind result_bind] in Hbody.
  destruct (json_dumps w data); [|done]. cbn [mbind result_bind] in Hbody.
  destruct data as [| | | | | |d]; try done.
  exists r, d. split; [done|]. split; [done|].
  repeat
    match type of Hbody with
    | (?m ≫= _) = _ => destruct m; [|done]; cbn [mbind result_bind] in Hbody
    end.
  by injection Hbody as <-.
Qed.



Lemma fetch_loop_counts w b (n : nat) : ∀ p acc log pages log',
  fetch_loop w b (seqZ p (Z.of_nat n)) acc log = (Ok pages, log') →
  ∃ new recs,
    log' = log ++ new ∧ pages = acc ++ recs ∧
    (length new = length recs ∨
     length new = S (length recs) ∧
     ∃ rq v, last new = Some rq ∧
             fetch_result w (req_outcome rq) = Ok v ∧ truthy v = false).
Proof.
  induction n as [|n IH]; intros p acc log pages log' Hrun.
  - injection Hrun as <- <-. exists [], []. rewrite !app_nil_r. auto.
  - rewrite seqZ_S in Hrun. cbn [fetch_loop] in Hrun.
    unfold mbind, M_bind in Hrun.
    destruct (fetch_one w b p acc log) as [[[acc1 go]|e] log1] eqn:Hone;
      [|done].
    rewrite fetch_one_spec in Hone.
    destruct (url_of_page w b p) as [u|]; [|done].
    injection Hone as Hafter <-.
    apply after_fetch_inv in Hafter as (data & Hdata & Hcase).
    destruct go.
    + destruct (truthy data); [|by destruct Hcase]. destruct Hcase as [-> _].
      apply IH in Hrun as (new & recs & -> & -> & Hcount).
      exists (sent w log u :: new), (page_record p b data :: recs).
      rewrite <- !app_assoc. split; [done|]. split; [done|].
      destruct Hcount as [Heq|(Heq & rq & v & Hlast & Hv & Ht)].
      * left. cbn. lia.
      * right. split; [cbn; lia|]. exists rq, v. split; [|done].
        destruct new; [done|]. done.
    + injection Hrun as <- <-. destruct (truthy data) eqn:Ht.
      * destruct Hcase as [-> _]. exists [sent w log u], [page_record p b data].
        split; [done|]. split; [done|]. by left.
      * destruct Hcase as [-> _]. exists [sent w log u], [].
        rewrite app_nil_r. split; [done|]. split; [done|]. right.
        split; [done|]. by exists (sent w log u), data.
Qed.

(** When [fetch_all_pages] returns, the i-th record holds the dict the
    i-th request was answered with, under page number i+1; and there
    are as many requests as records, or one more, the last one a fetch
    that came back falsy. *)
Theorem fetch_all_pages_records w base_url max_pages pages log :
  fetch_all_pages w base_url max_pages [] = (Ok pages, log) →
  (∀ (i : nat) rec, pages !! i = Some rec →
     ∃ rq d, log !! i = Some rq ∧
       fetch_result w (req_outcome rq) = Ok (VDict d) ∧
       rec = page_record (Z.of_nat i + 1) base_url (VDict d)) ∧
  (length log = length pages ∨
   length log = S (length pages) ∧
   ∃ rq v, last log = Some rq ∧
           fetch_result w (req_outcome rq) = Ok v ∧ truthy v = false).
Proof.
  intros Hrun. split.
  - destruct (fetch_all_pages_inv w base_url max_pages)
      as (out & log0 & Hrun' & _ & _ & _ & Hpages & _).
    rewrite Hrun in Hrun'. injection Hrun' as <- <-.
    destruct (Hpages _ eq_refl) as [_ Hrecs].
    intros i rec Hi. destruct (Hrecs _ _ Hi) as (rq & data & Hrq & Hdata & Ht & ->).
    destruct (fetch_result_ok _ _ _ Hdata) as [->|(r & d & _ & _ & ->)];
      [done|].
    exists rq, d.
    by replace (Z.of_nat i + 1) with (1 + Z.of_nat i) by lia.
  - unfold fetch_all_pages in Hrun. rewrite range_as_nat in Hrun.
    apply fetch_loop_counts in Hrun as (new & recs & -> & -> & Hcount).
    done.
Qed.

Lemma fetch_all_pages_records_witness :
  fetch_all_pages two_pages zillow_url 3 [] =
    (Ok two_pages_records, two_pages_log) ∧
  (length two_pages_log = length two_pages_records ∨
   length two_pages_log = S (length two_pages_records) ∧
   ∃ rq v, last two_pages_log = Some rq ∧
           fetch_result two_pages (req_outcome rq) = Ok v ∧ truthy v = false).
Proof.
  split; [vm_compute; reflexivity|].
  apply (fetch_all_pages_records two_pages zillow_url 3
           two_pages_records two_pages_log).
  vm_compute. reflexivity.
Defined.




End ScraperRunProofs.

(* ================================================================== *)
(** ** Facts about the path of a page's URL *)
(* ================================================================== *)

Module UrlPathProofs.
Import UrlPath.

Lemma append_cons c a b : String c a +:+ b = String c (a +:+ b).
Proof. reflexivity. Qed.

Lemma append_empty b : EmptyString +:+ b = b.
Proof. reflexivity. Qed.

Lemma append_assoc a b c : (a +:+ b) +:+ c = a +:+ (b +:+ c).
Proof. induction a as [|x a IH]; [done|]. by rewrite !append_cons, IH. Qed.

Ltac str_step :=
  rewrite ?append_cons, ?append_empty;
  cbn [has_slash split_slash rstrip_slash join_slash endswith].

Lemma has_slash_app a b :
  has_slash (a +:+ b) = has_slash a || has_slash b.
Proof.
  induction a as [|c a IH]; [done|].
  str_step. by rewrite IH, orb_assoc.
Qed.

Lemma split_slash_nonempty s : split_slash s ≠ [].
Proof.
  destruct s as [|c s]; [done|].
  str_step. destruct (is_slash c); [done|]. by destruct (split_slash s).
Qed.

Lemma split_slash_free s :
  Forall (λ p, has_slash p = false) (split_slash s).
Proof.
  induction s as [|c s IH]; [by repeat constructor|].
  str_step. destruct (is_slash c) eqn:Hc.
  - by constructor.
  - destruct (split_slash s) as [|first others].
    + repeat constructor. str_step. by rewrite Hc.
    + inversion IH as [|? ? Hfirst Hothers]; subst.
      constructor; [|done]. str_step. by rewrite Hc.
Qed.

Lemma split_slash_no_slash s :
  has_slash s = false → split_slash s = [s].
Proof.
  induction s as [|c s IH]; [done|].
  str_step. intros [Hc Hs]%orb_false_elim. by rewrite Hc, IH.
Qed.

Lemma split_slash_app a b :
  has_slash a = false →
  split_slash (a +:+ String "/" b) = a :: split_slash b.
Proof.
  induction a as [|c a IH]; [done|].
  str_step. intros [Hc Ha]%orb_false_elim. by rewrite Hc, IH.
Qed.

Lemma split_join parts :
  parts ≠ [] → Forall (λ p, has_slash p = false) parts →
  split_slash (join_slash parts) = parts.
Proof.
  induction parts as [|part rest IH]; [done|].
  intros _ Hfree. inversion Hfree as [|? ? Hpart Hrest]; subst.
  destruct rest as [|next rest].
  - by apply split_slash_no_slash.
  - change (join_slash (part :: next :: rest))
      with (part +:+ String "/" (join_slash (next :: rest))).
    rewrite split_slash_app by done. by rewrite IH.
Qed.

Lemma rstrip_slash_app a b :
  b ≠ EmptyString → rstrip_slash b = b → rstrip_slash (a +:+ b) = a +:+ b.
Proof.
  intros Hb Hstrip. induction a as [|c a IH]; [done|].
  str_step. rewrite IH. destruct (a +:+ b) eqn:Hab; [|done].
  by destruct a, b.
Qed.

Lemma rstrip_slash_snoc s :
  rstrip_slash s = s → rstrip_slash (s +:+ "/") = s.
Proof.
  induction s as [|c s IH]; [done|].
  str_step. destruct (rstrip_slash s) as [|c' s'] eqn:Hs.
  - destruct (is_slash c) eqn:Hc; [done|].
    by intros [= <-].
  - intros [= <-]. by rewrite IH.
Qed.

Lemma endswith_app a suffix : endswith (a +:+ suffix) suffix = true.
Proof.
  induction a as [|c a IH].
  - rewrite append_empty. destruct suffix; cbn [endswith]; by rewrite String.eqb_refl.
  - str_step. rewrite IH. by rewrite orb_true_r.
Qed.

Lemma pretty_N_char_no_slash x : is_slash (pretty_N_char x) = false.
Proof. unfold pretty_N_char. by repeat case_match. Qed.

Lemma pretty_N_go_no_slash x s :
  has_slash s = false → has_slash (pretty_N_go x s) = false.
Proof.
  revert s. induction (N.lt_wf_0 x) as [x _ IH]. intros s Hs.
  destruct (decide (x = 0%N)) as [->|Hx].
  - by rewrite pretty_N_go_0.
  - rewrite pretty_N_go_step by lia.
    apply IH.
    + apply N.div_lt; lia.
    + str_step. by rewrite pretty_N_char_no_slash.
Qed.

Lemma pretty_Z_no_slash (n : Z) : has_slash (pretty n) = false.
Proof.
  assert (∀ x : N, has_slash (pretty x) = false) as HN.
  { intros x. unfold pretty, pretty_N. case_decide; [done|].
    by apply pretty_N_go_no_slash. }
  destruct n as [|p|p]; [done| |].
  - apply HN.
  - change (pretty (Z.neg p)) with ("-" +:+ pretty (N.pos p)).
    rewrite has_slash_app, HN. done.
Qed.

Lemma page_segment_no_slash n : has_slash (page_segment n) = false.
Proof. unfold page_segment. by rewrite has_slash_app, pretty_Z_no_slash. Qed.

Lemma page_segment_is_page n : not_page (page_segment n) = false.
Proof. unfold not_page, page_segment. by rewrite endswith_app. Qed.

Lemma page_segment_stripped n :
  rstrip_slash (page_segment n) = page_segment n.
Proof. unfold page_segment. by apply rstrip_slash_app. Qed.

Lemma page_segment_nonempty n : page_segment n ≠ EmptyString.
Proof. unfold page_segment. by destruct (pretty n). Qed.

Lemma join_slash_snoc parts seg :
  join_slash (parts ++ [seg]) =
    match parts with
    | [] => seg
    | _ => join_slash parts +:+ "/" +:+ seg
    end.
Proof.
  induction parts as [|part rest IH]; [done|].
  destruct rest as [|next rest]; [done|].
  change (join_slash ((part :: next :: rest) ++ [seg]))
    with (part +:+ "/" +:+ join_slash ((next :: rest) ++ [seg])).
  rewrite IH.
  change (join_slash (part :: next :: rest))
    with (part +:+ "/" +:+ join_slash (next :: rest)).
  by rewrite <- !append_assoc.
Qed.

Lemma join_slash_snoc_suffix parts seg :
  ∃ before, join_slash (parts ++ [seg]) = before +:+ seg.
Proof.
  rewrite join_slash_snoc. destruct parts as [|part rest].
  - by exists EmptyString.
  - exists (join_slash (part :: rest) +:+ "/"). by rewrite <- append_assoc.
Qed.

(** The segments of a rewritten path, read back the way the next call
    reads them. *)
Lemma new_path_parts path p :
  1 < p →
  split_slash (rstrip_slash (new_path path p)) =
    List.filter not_page (split_slash (rstrip_slash path)) ++ [page_segment p].
Proof.
  intros Hp. unfold new_path.
  destruct (Z.ltb_spec 1 p) as [_|]; [|lia].
  fold not_page.
  set (kept := List.filter not_page (split_slash (rstrip_slash path))).
  rewrite rstrip_slash_snoc.
  - apply split_join; [by destruct kept|].
    apply Forall_app. split.
    + apply Forall_forall. intros part [Hin _]%list_elem_of_In%filter_In.
      pose proof (split_slash_free (rstrip_slash path)) as Hfree.
      rewrite Forall_forall in Hfree. apply Hfree. by apply list_elem_of_In.
    + repeat constructor. apply page_segment_no_slash.
  - destruct (join_slash_snoc_suffix kept (page_segment p)) as [before ->].
    apply rstrip_slash_app;
      [apply page_segment_nonempty|apply page_segment_stripped].
Qed.

Lemma filter_not_page_idemp parts :
  List.filter not_page (List.filter not_page parts) = List.filter not_page parts.
Proof.
  induction parts as [|part rest IH]; [done|].
  cbn [List.filter]. destruct (not_page part) eqn:Hpart; [|done].
  cbn [List.filter]. by rewrite Hpart, IH.
Qed.

(** Paging a URL that already carries a page segment replaces the
    segment: the path for page [q] is the same whether it is built from
    the base path or from the path of any page [p > 1]. *)
Theorem new_path_replaces_page path p q :
  1 < p → new_path (new_path path p) q = new_path path q.
Proof.
  intros Hp. unfold new_path at 1. rewrite new_path_parts by done.
  fold not_page. rewrite List.filter_app, filter_not_page_idemp.
  cbn [List.filter]. rewrite page_segment_is_page, app_nil_r.
  done.
Qed.

Lemma new_path_replaces_page_witness :
  1 < 2 ∧
  new_path (new_path "/denver-co/rentals/" 2) 3 =
    new_path "/denver-co/rentals/" 3.
Proof.
  split; [lia|]. apply (new_path_replaces_page "/denver-co/rentals/" 2 3). lia.
Defined.

(** The path for a page [p > 1], read back as the next call reads it,
    is the old path's segments that are no page segment ([..._p]), in
    their order, followed by the one segment [<p>_p]; the path ends
    with [<p>_p/]. *)
Theorem new_path_segments path p :
  1 < p →
  split_slash (rstrip_slash (new_path path p)) =
    List.filter (λ part, negb (endswith part "_p"))
      (split_slash (rstrip_slash path)) ++ [page_segment p] ∧
  endswith (page_segment p) "_p" = true ∧
  endswith (new_path path p) (page_segment p +:+ "/") = true.
Proof.
  intros Hp. split; [by apply new_path_parts|]. split.
  - apply endswith_app.
  - unfold new_path. destruct (Z.ltb_spec 1 p) as [_|]; [|lia].
    destruct (join_slash_snoc_suffix
      (List.filter (λ p0, negb (endswith p0 "_p"))
         (split_slash (rstrip_slash path)))
      (page_segment p)) as [before ->].
    rewrite append_assoc. apply endswith_app.
Qed.

Lemma new_path_segments_witness :
  1 < 3 ∧
  split_slash (rstrip_slash (new_path "/denver-co/rentals/2_p/" 3)) =
    List.filter (λ part, negb (endswith part "_p"))
      (split_slash (rstrip_slash "/denver-co/rentals/2_p/"))
    ++ [page_segment 3] ∧
  endswith (page_segment 3) "_p" = true ∧
  endswith (new_path "/denver-co/rentals/2_p/" 3) (page_segment 3 +:+ "/")
    = true.
Proof.
  split; [lia|]. apply (new_path_segments "/denver-co/rentals/2_p/" 3). lia.
Defined.

End UrlPathProofs.

(* ================================================================== *)
(** ** Facts about the driver *)
(* ================================================================== *)

Module DriverProofs.
Import Py Parser Scraper ParserSpec ScraperSpec ParserProofs ScraperProofs.
Import ScraperSites ScraperRunProofs Driver DriverSpec.

Lemma beds_not_tag_key : "beds" ∉ tag_keys.
Proof. apply (bool_decide_unpack _). by vm_compute. Qed.

Lemma baths_not_tag_key : "baths" ∉ tag_keys.
Proof. apply (bool_decide_unpack _). by vm_compute. Qed.

Section Scrape.
Variable E : env.
Variable w : world.

Lemma parse_listings_keys html listings :
  parse_listings E html = Returns listings → Forall has_known_keys listings.
Proof.
  unfold parse_listings. destruct (load_json E html) as [json_data|]; [|done].
  cbn [mbind run_bind]. unfold parse_all_properties.
  destruct (negb (truthy json_data)); [by intros [= <-]|].
  destruct (extract_search_results json_data) as [sr|]; [|done].
  cbn [mbind result_bind].
  destruct (negb (truthy sr)); [by intros [= <-]|].
  destruct (list_results_of sr) as [lr|]; [|done]. cbn [mbind result_bind].
  destruct (py_len lr); [|done]. cbn [mbind result_bind].
  destruct (py_iter lr) as [items|]; [|done]. cbn [mbind result_bind].
  destruct (parse_each (repr E) items []) as [out|] eqn:Hrun; [|done].
  intros [= <-]. by eapply parse_each_keys.
Qed.

Lemma tag_listings_spec b m p listings :
  1 ≤ p ≤ m →
  Forall has_known_keys listings →
  ∃ out, tag_listings listings (VInt p) (VStr b) = Returns out ∧
         length out = length listings ∧ Forall (tagged b m) out.
Proof.
  intros Hp. induction 1 as [|l rest (rec & -> & Hdom) _ (out & IH & Hlen & Hout)].
  - by exists [].
  - cbn [tag_listings py_setitem of_result mbind run_bind]. rewrite IH.
    cbn [mbind run_bind]. eexists. split; [done|]. split; [cbn; lia|].
    constructor; [|done]. eexists _, p. split; [done|].
    split; [|split; [|split; [done|]]].
    + rewrite !dom_insert_L, Hdom. unfold tag_keys. set_solver.
    + rewrite lookup_insert_ne by done. by rewrite lookup_insert.
    + by rewrite lookup_insert.
Qed.

Lemma counted_app xs ys : counted (xs ++ ys) = counted xs + counted ys.
Proof.
  unfold counted. induction xs as [|x xs IH]; [done|].
  cbn [app foldr]. rewrite IH. lia.
Qed.

Lemma html_of_dict (d : gmap string value) : ∃ h, html_of (VDict d) = Ok h.
Proof.
  unfold html_of, py_or. rewrite !py_get_dict. cbn [mbind result_bind].
  repeat (destruct (truthy _); [by eexists|]).
  by eexists.
Qed.

(** The loop over the fetched pages, on its invariant. *)
Lemma parse_pages_inv b m pages : ∀ acc sums out sums',
  Forall (fetched_page b m) pages →
  Forall (tagged b m) acc →
  counted sums = Z.of_nat (length acc) →
  parse_pages E pages acc sums = Returns (out, sums') →
  Forall (tagged b m) out ∧
  counted sums' = Z.of_nat (length out) ∧
  (length sums' ≤ length sums + length pages)%nat.
Proof.
  induction pages as [|page rest IH]; intros acc sums out sums' Hpages Hacc Hsum.
  - intros [= <- <-]. split; [done|]. split; [done|]. cbn. lia.
  - inversion Hpages as [|? ? (p & d & -> & Hp) Hrest]; subst.
    cbn [parse_pages].
    change (py_getitem (page_record p b (VDict d)) "page_number")
      with (Ok (VInt p)).
    change (py_getitem (page_record p b (VDict d)) "url")
      with (Ok (VStr b)).
    change (py_getitem (page_record p b (VDict d)) "data")
      with (Ok (VDict d)).
    cbn [of_result mbind run_bind].
    match goal with
    | |- context [of_result ?chain] => change chain with (html_of (VDict d))
    end.
    destruct (html_of_dict d) as [h ->]. cbn [of_result mbind run_bind].
    destruct (truthy h); cbn [negb].
    + destruct (parse_listings E h) as [listings|] eqn:Hparse; [|done].
      cbn [mbind run_bind].
      destruct (tag_listings_spec b m p listings Hp)
        as (tagged_listings & -> & Hlen & Htagged).
      { by eapply parse_listings_keys. }
      cbn [mbind run_bind]. intros Hrun.
      apply IH in Hrun as (Hout & Hcount & Hsums); [| done | |].
      * split; [done|]. split; [done|].
        rewrite length_app in Hsums. cbn in *. lia.
      * by apply Forall_app.
      * rewrite counted_app, length_app, Hsum. unfold counted at 1.
        cbn [foldr]. unfold listings_count.
        change ((list_to_map _ : gmap string value) !! "listings_count")
          with (Some (VInt (Z.of_nat (length tagged_listings)))).
        lia.
    + intros Hrun. apply IH in Hrun as (Hout & Hcount & Hsums); try done.
      split; [done|]. split; [done|]. cbn. lia.
Qed.

(** No statistics at a key no listing has. *)
Lemma stats_at_absent key listings :
  Forall (λ l, ∃ d : gmap string value, l = VDict d ∧ d !! key = None) listings →
  stats_at E key listings = Returns None.
Proof.
  intros Habsent. unfold stats_at.
  assert (numbers_at E key listings =
            Returns (replicate (length listings) VNone)) as ->.
  { induction Habsent as [|l rest (d & -> & Hd) _ IH]; [done|].
    cbn [numbers_at]. rewrite py_get_dict. unfold field. rewrite Hd.
    cbn [of_result mbind run_bind default]. by rewrite IH. }
  cbn [mbind run_bind].
  assert (keep_positive (replicate (length listings) VNone) = Returns [])
    as ->; [|done].
  induction (length listings) as [|n IH]; [done|].
  cbn [replicate keep_positive is_positive mbind run_bind]. by rewrite IH.
Qed.

Lemma tagged_no_key b m key listings :
  key ∉ tag_keys →
  Forall (tagged b m) listings →
  Forall (λ l, ∃ d : gmap string value, l = VDict d ∧ d !! key = None) listings.
Proof.
  intros Hkey Htagged. eapply Forall_impl; [done|].
  intros l (d & p & -> & Hdom & _). exists d. split; [done|].
  apply not_elem_of_dom. by rewrite Hdom.
Qed.

(** The statistics dict: the three counts, and price statistics at
    most. *)
Lemma summarize_spec b m pages listings sums stats :
  Forall (tagged b m) listings →
  summarize E pages listings sums = Returns stats →
  ∃ s : gmap string value,
    stats = VDict s ∧
    s !! "total_pages" = Some (VInt (Z.of_nat (length pages))) ∧
    s !! "total_listings" = Some (VInt (Z.of_nat (length listings))) ∧
    s !! "pages" = Some (VList sums) ∧
    s !! "beds_stats" = None ∧ s !! "baths_stats" = None.
Proof.
  intros Htagged. unfold summarize.
  destruct listings as [|l rest] eqn:Hl.
  - intros [= <-]. eexists. by repeat split.
  - rewrite <- Hl in *. clear Hl l rest.
    rewrite (stats_at_absent "beds"), (stats_at_absent "baths")
      by (eapply tagged_no_key;
          [apply beds_not_tag_key || apply baths_not_tag_key|done]).
    destruct (stats_at E "price" listings) as [[prices|]|]; [| |done];
      cbn [mbind run_bind add_stats]; intros [= <-];
      eexists; by repeat split.
Qed.

(** What [fetch_all_pages] hands to the driver. *)
Lemma fetch_all_pages_fetched b m pages log :
  fetch_all_pages w b m [] = (Ok pages, log) →
  Forall (fetched_page b m) pages.
Proof.
  intros Hrun.
  destruct (fetch_all_pages_inv w b m)
    as (out & log0 & Hrun0 & Hlen & _ & _ & Hpages & _).
  rewrite Hrun in Hrun0. injection Hrun0 as <- <-.
  destruct (Hpages pages eq_refl) as [Hle Hrec].
  apply Forall_lookup. intros i rec Hi.
  pose proof (lookup_lt_Some _ _ _ Hi) as Hlt.
  destruct (Hrec i rec Hi) as (rq & data & _ & Hdata & Htruthy & ->).
  destruct (fetch_result_ok _ _ _ Hdata) as [->|(r & d & _ & _ & ->)];
    [done|].
  exists (1 + Z.of_nat i), d. split; [done|]. lia.
Qed.

(** A run of the driver that returns. *)
Lemma scrape_inv b m listings stats log :
  scrape_all_pages_and_parse E w b m [] = (Returns (listings, stats), log) →
  ∃ pages,
    fetch_all_pages w b m [] = (Ok pages, log) ∧
    Forall (tagged b m) listings ∧
    match pages with
    | [] => listings = [] ∧ stats = VDict ∅
    | _ =>
        ∃ (s : gmap string value) sums,
          stats = VDict s ∧
          s !! "total_pages" = Some (VInt (Z.of_nat (length pages))) ∧
          s !! "total_listings" = Some (VInt (Z.of_nat (length listings))) ∧
          s !! "pages" = Some (VList sums) ∧
          s !! "beds_stats" = None ∧ s !! "baths_stats" = None ∧
          counted sums = Z.of_nat (length listings) ∧
          (length sums ≤ length pages)%nat
    end.
Proof.
  unfold scrape_all_pages_and_parse.
  destruct (fetch_all_pages w b m []) as [[pages|e] log0] eqn:Hfetch;
    [|done].
  pose proof (fetch_all_pages_fetched _ _ _ _ Hfetch) as Hpages.
  destruct pages as [|page rest].
  - intros [= <- <- <-]. exists []. by repeat split.
  - cbv beta iota. remember (page :: rest) as pages eqn:Hp.
    destruct (parse_pages E pages [] []) as [[all_listings sums]|] eqn:Hparse;
      [|done].
    cbn [mbind run_bind].
    destruct (summarize E pages all_listings sums) as [st|] eqn:Hsum; [|done].
    cbn [mbind run_bind]. intros [= <- <- <-].
    apply (parse_pages_inv b m) in Hparse as (Htagged & Hcount & Hsums);
      [|done|done|done].
    apply (summarize_spec b m) in Hsum
      as (s & -> & Htp & Htl & Hpg & Hbeds & Hbaths); [|done].
    exists pages. split; [done|]. split; [done|].
    cbn in Hsums. subst pages. exists s, sums. by repeat split.
Qed.






(** Every listing the driver returns is a parsed record with the 25
    known keys and two more: the number of the page it was found on,
    between 1 and [max_pages], and the URL the run started from. *)
Theorem scrape_listings_tagged base_url max_pages listings stats log :
  scrape_all_pages_and_parse E w base_url max_pages [] =
    (Returns (listings, stats), log) →
  Forall (tagged base_url max_pages) listings.
Proof. intros Hrun. by apply scrape_inv in Hrun as (pages & _ & Htagged & _). Qed.

(** The driver never reports statistics on beds or baths: it reads them
    at the keys 'beds' and 'baths', which no parsed record has. *)
Theorem scrape_reports_no_beds_or_baths base_url max_pages listings stats log :
  scrape_all_pages_and_parse E w base_url max_pages [] =
    (Returns (listings, stats), log) →
  ∃ s : gmap string value,
    stats = VDict s ∧ s !! "beds_stats" = None ∧ s !! "baths_stats" = None.
Proof.
  intros Hrun. apply scrape_inv in Hrun as (pages & _ & _ & Hstats).
  destruct pages as [|page rest].
  - destruct Hstats as [_ ->]. by exists ∅.
  - destruct Hstats as (s & sums & -> & _ & _ & _ & Hbeds & Hbaths & _).
    by exists s.
Qed.

(** The counts the driver reports agree with what it returns: the pages
    fetched, the listings returned, and page summaries whose listing
    counts add up to the number of listings (a page without HTML has no
    summary). *)
Theorem scrape_counts_consistent base_url max_pages listings stats log :
  scrape_all_pages_and_parse E w base_url max_pages [] =
    (Returns (listings, stats), log) →
  stats = VDict ∅ ∧ listings = [] ∧
    (fetch_all_pages w base_url max_pages []).1 = Ok [] ∨
  ∃ (s : gmap string value) pages sums,
    stats = VDict s ∧
    (fetch_all_pages w base_url max_pages []).1 = Ok pages ∧
    s !! "total_pages" = Some (VInt (Z.of_nat (length pages))) ∧
    s !! "total_listings" = Some (VInt (Z.of_nat (length listings))) ∧
    s !! "pages" = Some (VList sums) ∧
    counted sums = Z.of_nat (length listings) ∧
    (length sums ≤ length pages)%nat.
Proof.
  intros Hrun. apply scrape_inv in Hrun as (pages & Hfetch & _ & Hstats).
  rewrite Hfetch. cbn [fst]. destruct pages as [|page rest].
  - left. by destruct Hstats as [-> ->].
  - right.
    destruct Hstats as (s & sums & -> & Htp & Htl & Hpg & _ & _ & Hc & Hlen).
    by exists s, (page :: rest), sums.
Qed.



End Scrape.


Lemma scrape_listings_tagged_witness :
  scrape_all_pages_and_parse sample_env two_pages zillow_url 3 [] =
    (Returns (sample_listings, sample_stats), two_pages_log) ∧
  Forall (tagged zillow_url 3) sample_listings.
Proof.
  split; [vm_compute; reflexivity|].
  apply (scrape_listings_tagged sample_env two_pages zillow_url 3
           sample_listings sample_stats two_pages_log).
  vm_compute. reflexivity.
Defined.

Lemma scrape_reports_no_beds_or_baths_witness :
  scrape_all_pages_and_parse sample_env two_pages zillow_url 3 [] =
    (Returns (sample_listings, sample_stats), two_pages_log) ∧
  ∃ s : gmap string value,
    sample_stats = VDict s ∧
    s !! "beds_stats" = None ∧ s !! "baths_stats" = None.
Proof.
  split; [vm_compute; reflexivity|].
  apply (scrape_reports_no_beds_or_baths sample_env two_pages zillow_url 3
           sample_listings sample_stats two_pages_log).
  vm_compute. reflexivity.
Defined.

Lemma scrape_counts_consistent_witness :
  scrape_all_pages_and_parse sample_env two_pages zillow_url 3 [] =
    (Returns (sample_listings, sample_stats), two_pages_log) ∧
  (sample_stats = VDict ∅ ∧ sample_listings = [] ∧
     (fetch_all_pages two_pages zillow_url 3 []).1 = Ok [] ∨
   ∃ (s : gmap string value) pages sums,
     sample_stats = VDict s ∧
     (fetch_all_pages two_pages zillow_url 3 []).1 = Ok pages ∧
     s !! "total_pages" = Some (VInt (Z.of_nat (length pages))) ∧
     s !! "total_listings" =
       Some (VInt (Z.of_nat (length sample_listings))) ∧
     s !! "pages" = Some (VList sums) ∧
     counted sums = Z.of_nat (length sample_listings) ∧
     (length sums ≤ length pages)%nat).
Proof.
  split; [vm_compute; reflexivity|].
  apply (scrape_counts_consistent sample_env two_pages zillow_url 3
           sample_listings sample_stats two_pages_log).
  vm_compute. reflexivity.
Defined.


End DriverProofs.

(* ================================================================== *)
(** ** Facts about the summary statistics *)
(* ================================================================== *)

Module SummaryProofs.
Import Py ParserSpec ParserProofs Driver Summary DriverSpec.

Section Stats.
Variable E : env.

Lemma count_at_bounds key properties n :
  count_at key properties = Returns n →
  0 ≤ n ≤ Z.of_nat (length properties).
Proof.
  revert n. induction properties as [|p rest IH]; intros n.
  - intros [= <-]. cbn. lia.
  - cbn [count_at].
    destruct (py_get p key VNone) as [test|];
      cbn [of_result mbind run_bind]; [|done].
    destruct (count_at key rest) as [k|]; cbn [mbind run_bind]; [|done].
    intros [= <-]. specialize (IH k eq_refl).
    cbn [length]. destruct (truthy test); lia.
Qed.

Lemma values_at_nonempty key properties vals :
  values_at key properties = Returns vals →
  vals ≠ [] ↔ some_truthy key properties.
Proof.
  unfold some_truthy. revert vals.
  induction properties as [|p rest IH]; intros vals.
  - intros [= <-]. split; [done|]. by intros ?%Exists_nil.
  - cbn [values_at].
    destruct p as [| | | | | |d];
      try (cbn [py_get of_result mbind run_bind]; done).
    rewrite py_get_dict. cbn [of_result mbind run_bind py_getitem].
    unfold field. destruct (d !! key) as [v|] eqn:Hd;
      cbn [default from_option id].
    + destruct (truthy v) eqn:Hv.
      * cbn [mbind run_bind].
        destruct (values_at key rest) as [more|];
          cbn [mbind run_bind]; [|done].
        intros [= <-]. split; [|done].
        intros _. apply Exists_cons_hd. by exists d, v.
      * intros Hrest. rewrite (IH _ Hrest), Exists_cons.
        split; [by right|]. intros [(d' & v' & [= <-] & Hd' & Hv')|]; [|done].
        congruence.
    + cbn [truthy]. intros Hrest. rewrite (IH _ Hrest), Exists_cons.
      split; [by right|]. intros [(d' & v' & [= <-] & Hd' & Hv')|]; [|done].
      congruence.
Qed.

Lemma average_step (stats : value) (xs : list value)
    (s0 : gmap string value) (name : string)
    (k : gmap string value → run value) :
  (match xs with
   | [] => Returns s0
   | _ => avg ← average E xs; Returns (<[name := avg]> s0)
   end ≫= k) = Returns stats →
  ∃ s1 : gmap string value, k s1 = Returns stats ∧
    ∀ key, key ≠ name → s1 !! key = s0 !! key.
Proof.
  destruct xs as [|x xs'].
  - cbn [mbind run_bind]. by exists s0.
  - destruct (average E (x :: xs')) as [avg|]; cbn [mbind run_bind]; [|done].
    eexists. split; [done|]. intros key Hkey. by rewrite lookup_insert_ne.
Qed.

(** The statistics of a non-empty list of properties: the number of
    properties; counts of those with an image and of the featured ones
    that are between 0 and that number; and the three price statistics
    together, present exactly when some property has a truthy
    'price_numeric'. *)
Theorem get_summary_stats_counts properties stats :
  properties ≠ [] →
  get_summary_stats E properties = Returns stats →
  ∃ (s : gmap string value) with_images featured,
    stats = VDict s ∧
    s !! "total_properties" = Some (VInt (Z.of_nat (length properties))) ∧
    s !! "with_images" = Some (VInt with_images) ∧
    s !! "featured" = Some (VInt featured) ∧
    0 ≤ with_images ≤ Z.of_nat (length properties) ∧
    0 ≤ featured ≤ Z.of_nat (length properties) ∧
    (is_Some (s !! "avg_price") ↔ some_truthy "price_numeric" properties) ∧
    (is_Some (s !! "min_price") ↔ some_truthy "price_numeric" properties) ∧
    (is_Some (s !! "max_price") ↔ some_truthy "price_numeric" properties).
Proof.
  intros Hne. unfold get_summary_stats.
  destruct properties as [|p0 rest0]; [done|]. clear Hne.
  remember (p0 :: rest0) as properties eqn:Hp. clear Hp p0 rest0.
  destruct (values_at "price_numeric" properties) as [prices|] eqn:Hprices;
    cbn [mbind run_bind]; [|done].
  destruct (values_at "area_sqft" properties) as [areas|];
    cbn [mbind run_bind]; [|done].
  destruct (values_at "bedrooms" properties) as [bedrooms|];
    cbn [mbind run_bind]; [|done].
  destruct (count_at "has_image" properties) as [i|] eqn:Hi;
    cbn [mbind run_bind]; [|done].
  destruct (count_at "is_featured" properties) as [f|] eqn:Hf;
    cbn [mbind run_bind]; [|done].
  apply count_at_bounds in Hi, Hf.
  apply values_at_nonempty in Hprices.
  set (counts := list_to_map _ : gmap string value).
  assert (counts !! "total_properties"
            = Some (VInt (Z.of_nat (length properties))) ∧
          counts !! "with_images" = Some (VInt i) ∧
          counts !! "featured" = Some (VInt f) ∧
          counts !! "avg_price" = None ∧ counts !! "min_price" = None ∧
          counts !! "max_price" = None) as Hcounts by done.
  clearbody counts.
  destruct Hcounts as (Htotal & Himg & Hfeat & Havg & Hmin & Hmax).
  pose proof (average_step stats) as Havg_step.
  intros Hrun.
  assert (∃ s1 : gmap string value,
    (match areas with
     | [] => Returns s1
     | _ => avg ← average E areas; Returns (<["avg_area" := avg]> s1)
     end ≫= λ s2 : gmap string value,
       match bedrooms with
       | [] => Returns s2
       | _ =>
           avg ← average E bedrooms;
           Returns (<["avg_bedrooms" := avg]> s2)
       end ≫= λ s3, Returns (VDict s3)) = Returns stats ∧
    s1 !! "total_properties" = Some (VInt (Z.of_nat (length properties))) ∧
    s1 !! "with_images" = Some (VInt i) ∧
    s1 !! "featured" = Some (VInt f) ∧
    (is_Some (s1 !! "avg_price") ↔ prices ≠ []) ∧
    (is_Some (s1 !! "min_price") ↔ prices ≠ []) ∧
    (is_Some (s1 !! "max_price") ↔ prices ≠ []))
    as (s1 & Hrest & Htotal1 & Himg1 & Hfeat1 & Havg1 & Hmin1 & Hmax1).
  { destruct prices as [|x xs].
    - cbn [mbind run_bind] in Hrun. exists counts.
      rewrite Htotal, Himg, Hfeat, Havg, Hmin, Hmax.
      repeat split; try done; by intros [].
    - destruct (average E (x :: xs)) as [avg|]; cbn [mbind run_bind] in Hrun;
        [|done].
      destruct (py_min E (x :: xs)) as [lo|]; cbn [mbind run_bind] in Hrun;
        [|done].
      destruct (py_max E (x :: xs)) as [hi|]; cbn [mbind run_bind] in Hrun;
        [|done].
      eexists. split; [exact Hrun|].
      repeat first [rewrite lookup_insert|rewrite lookup_insert_ne by done].
      rewrite Htotal, Himg, Hfeat. repeat split; try done; by eexists. }
  apply Havg_step in Hrest as (s2 & Hrest & Hs2).
  apply Havg_step in Hrest as (s3 & [= <-] & Hs3).
  exists s3, i, f. rewrite !Hs3, !Hs2 by done.
  rewrite <- Hprices. destruct Hi, Hf. by split_and!.
Qed.

Lemma values_at_returns key properties :
  Forall (λ p, is_dict p = true) properties →
  ∃ vals, values_at key properties = Returns vals.
Proof.
  induction 1 as [|p rest Hp _ (vals & IH)]; [by exists []|].
  destruct p as [| | | | | |d]; try done.
  cbn [values_at]. rewrite py_get_dict. cbn [of_result mbind run_bind].
  unfold field, py_getitem. rewrite IH.
  destruct (d !! key) as [v|]; cbn [default from_option id truthy];
    [|by eexists].
  destruct (truthy v); cbn [mbind run_bind]; by eexists.
Qed.

Lemma count_at_returns key properties :
  Forall (λ p, is_dict p = true) properties →
  ∃ n, count_at key properties = Returns n.
Proof.
  induction 1 as [|p rest Hp _ (n & IH)]; [by exists 0|].
  destruct p as [| | | | | |d]; try done.
  cbn [count_at]. rewrite py_get_dict, IH. cbn [of_result mbind run_bind].
  by eexists.
Qed.

Lemma average_blame (xs : list value) (s0 : gmap string value)
    (name : string) (k : gmap string value → run value) (e : error) :
  (match xs with
   | [] => Returns s0
   | _ => avg ← average E xs; Returns (<[name := avg]> s0)
   end ≫= k) = Raises e →
  raised_by_numbers E e ∨ ∃ s1, k s1 = Raises e.
Proof.
  destruct xs as [|x xs']; cbn [mbind run_bind]; [by right; eexists|].
  destruct (average E (x :: xs')) as [avg|e'] eqn:Havg; cbn [mbind run_bind];
    [by right; eexists|].
  intros [= <-]. left. exists (x :: xs'). auto.
Qed.

Lemma price_blame (xs : list value) (s0 : gmap string value)
    (k : gmap string value → run value) (e : error) :
  (match xs with
   | [] => Returns s0
   | _ =>
       avg ← average E xs;
       lo ← py_min E xs;
       hi ← py_max E xs;
       Returns (<["max_price" := hi]>
                  (<["min_price" := lo]> (<["avg_price" := avg]> s0)))
   end ≫= k) = Raises e →
  raised_by_numbers E e ∨ ∃ s1, k s1 = Raises e.
Proof.
  destruct xs as [|x xs']; cbn [mbind run_bind]; [by right; eexists|].
  destruct (average E (x :: xs')) as [avg|e'] eqn:Havg; cbn [mbind run_bind];
    [|intros [= <-]; left; exists (x :: xs'); auto].
  destruct (py_min E (x :: xs')) as [lo|e'] eqn:Hlo; cbn [mbind run_bind];
    [|intros [= <-]; left; exists (x :: xs'); auto].
  destruct (py_max E (x :: xs')) as [hi|e'] eqn:Hhi; cbn [mbind run_bind];
    [by right; eexists|].
  intros [= <-]. left. exists (x :: xs'). auto.
Qed.

(** On a list of dicts, as [parse_all_properties] stores it,
    [get_summary_stats] raises no exception of its own: its lookups and
    subscripts succeed, and an exception it raises comes from [min],
    [max] or the average of a non-empty list. *)
Theorem get_summary_stats_raises_from_numbers properties e :
  Forall (λ p, is_dict p = true) properties →
  get_summary_stats E properties = Raises e →
  raised_by_numbers E e.
Proof.
  intros Hdicts. unfold get_summary_stats.
  destruct properties as [|p0 rest0]; [done|].
  remember (p0 :: rest0) as properties eqn:Hp. clear Hp p0 rest0.
  destruct (values_at_returns "price_numeric" properties Hdicts) as [prices ->].
  destruct (values_at_returns "area_sqft" properties Hdicts) as [areas ->].
  destruct (values_at_returns "bedrooms" properties Hdicts) as [bedrooms ->].
  destruct (count_at_returns "has_image" properties Hdicts) as [i ->].
  destruct (count_at_returns "is_featured" properties Hdicts) as [f ->].
  cbn [mbind run_bind]. set (counts := list_to_map _ : gmap string value).
  clearbody counts. intros Hrun.
  apply price_blame in Hrun as [?|[s1 Hrun]]; [done|].
  apply average_blame in Hrun as [?|[s2 Hrun]]; [done|].
  by apply average_blame in Hrun as [?|[s3 Hrun]].
Qed.

End Stats.

Lemma get_summary_stats_raises_from_numbers_witness :
  Forall (λ p, is_dict p = true)
    [VDict (record repr_sample listing_beds_text)] ∧
  get_summary_stats sample_env [VDict (record repr_sample listing_beds_text)]
    = Raises (Library TypeError) ∧
  raised_by_numbers sample_env (Library TypeError).
Proof.
  split; [by repeat constructor|]. split; [vm_compute; reflexivity|].
  apply (get_summary_stats_raises_from_numbers sample_env
           [VDict (record repr_sample listing_beds_text)]);
    [by repeat constructor|vm_compute; reflexivity].
Defined.

Lemma get_summary_stats_counts_witness :
  [VDict (record repr_sample listing)] ≠ [] ∧
  get_summary_stats sample_env [VDict (record repr_sample listing)] =
    Returns sample_summary_stats ∧
  ∃ (s : gmap string value) with_images featured,
    sample_summary_stats = VDict s ∧
    s !! "total_properties" = Some (VInt 1) ∧
    s !! "with_images" = Some (VInt with_images) ∧
    s !! "featured" = Some (VInt featured) ∧
    0 ≤ with_images ≤ 1 ∧
    0 ≤ featured ≤ 1 ∧
    (is_Some (s !! "avg_price") ↔
       some_truthy "price_numeric" [VDict (record repr_sample listing)]) ∧
    (is_Some (s !! "min_price") ↔
       some_truthy "price_numeric" [VDict (record repr_sample listing)]) ∧
    (is_Some (s !! "max_price") ↔
       some_truthy "price_numeric" [VDict (record repr_sample listing)]).
Proof.
  split; [discriminate|]. split; [vm_compute; reflexivity|].
  apply (get_summary_stats_counts sample_env
           [VDict (record repr_sample listing)] sample_summary_stats);
    [discriminate|vm_compute; reflexivity].
Defined.

End SummaryProofs.
